(** * react-ssr-optimization: the template-parameterised render cache

    A shallow embedding of [lib/index.js] and the properties of its
    flattening, cache-key and restore logic.

    How the program is modelled:
    - a props tree is a JSON-like [value]: a plain object is its list of
      own properties in enumeration order, an array is its list of
      elements, numbers are integers; object graphs are trees (no subtree
      is shared between two places);
    - [curEl.props] is mutated in place through the wrapper object
      [{a: curEl.props}].  Every function that mutates the tree returns
      the tree it leaves behind, and the render call returns, next to its
      result, the caller's tree, the store and the event queue as it
      leaves them, together with the list of its effects;
    - lodash ([get], [set], [template]), React's
      [escapeTextContentForBrowser], the store and [process.nextTick] are
      library code, given by executable models next to the place the
      source calls them.  Attribute paths are dotted paths; the write
      paths built with bracket notation are kept in parsed form, one
      segment per property name; a template is literal text with
      [${name}] placeholders; the store is a keyed map without eviction;
    - the host renderer is a function of the props tree and the root id;
    - the constructor is a function of the configuration object and of
      [process.env.NODE_ENV]; it gives the optimizer instance, or nothing
      where caching is not set up. *)

From Stdlib Require Import String Ascii List ZArith Bool Arith Lia.
From Stdlib Require Import Numbers.DecimalString Numbers.DecimalNat.
Import ListNotations.
Open Scope list_scope.
Open Scope string_scope.

Set Implicit Arguments.

(* ================================================================== *)
(** * Strings *)
(* ================================================================== *)

Module Str.

(** [s.replace(/c/g, by)] for a one-character pattern. *)
Fixpoint replaceChar (c : ascii) (by_ : string) (s : string) : string :=
  match s with
  | EmptyString => EmptyString
  | String x r =>
      if Ascii.eqb x c then by_ ++ replaceChar c by_ r
      else String x (replaceChar c by_ r)
  end.

(** [s.split(c)], never empty: the piece being read is [cur]. *)
Fixpoint splitOn (c : ascii) (cur : string) (s : string) : list string :=
  match s with
  | EmptyString => [cur]
  | String x r =>
      if Ascii.eqb x c then cur :: splitOn c EmptyString r
      else splitOn c (cur ++ String x EmptyString) r
  end.

(** Does the character occur in the string? *)
Fixpoint mem (c : ascii) (s : string) : bool :=
  match s with
  | EmptyString => false
  | String x r => Ascii.eqb x c || mem c r
  end.

(** Decimal numeral of a natural number ([String(n)] in JS). *)
Definition ofNat (n : nat) : string :=
  NilZero.string_of_uint (Nat.to_uint n).

(** Decimal numeral of an integer. *)
Definition ofZ (z : Z) : string :=
  NilZero.string_of_int (Z.to_int z).

(** The array index a property name denotes, if it is a canonical
    numeral without leading zeros (lodash's [isIndex]). *)
Definition toIndex (s : string) : option nat :=
  match NilZero.uint_of_string s with
  | Some u => let n := Nat.of_uint u in
              if String.eqb (ofNat n) s then Some n else None
  | None => None
  end.

(** [s.replace(new RegExp(pat, "g"), rep)] for a pattern without
    metacharacters; [skip] counts the characters of a match still to be
    dropped. *)
Fixpoint replaceAllFrom (pat rep : string) (skip : nat) (s : string) : string :=
  match s with
  | EmptyString => EmptyString
  | String x r =>
      match skip with
      | S k => replaceAllFrom pat rep k r
      | O =>
          if (negb (String.eqb pat EmptyString)) && String.prefix pat s
          then rep ++ replaceAllFrom pat rep (String.length pat - 1) r
          else String x (replaceAllFrom pat rep 0 r)
      end
  end.

Definition replaceAll (pat rep s : string) : string :=
  replaceAllFrom pat rep 0 s.

(** Decimal digits, and strings made of them. *)
Definition isDigit (c : ascii) : bool :=
  let n := nat_of_ascii c in Nat.leb 48 n && Nat.leb n 57.

Fixpoint allDigits (s : string) : bool :=
  match s with
  | EmptyString => true
  | String c r => isDigit c && allDigits r
  end.


End Str.

(* ================================================================== *)
(** * JavaScript values *)
(* ================================================================== *)

Unset Elimination Schemes.

(** Props trees.  [VObject] lists own enumerable properties in enumeration
    order; [VArray] lists elements (a hole reads as [VUndefined]). *)
Inductive value : Type :=
| VUndefined
| VNull
| VBool (b : bool)
| VNumber (z : Z)
| VString (s : string)
| VObject (fields : list (string * value))
| VArray (elems : list value).

Set Elimination Schemes.

Module JS.

(** lodash [isPlainObject], [isArray], [isObject]. *)
Definition isPlainObject (v : value) : bool :=
  match v with VObject _ => true | _ => false end.

Definition isArray (v : value) : bool :=
  match v with VArray _ => true | _ => false end.

Definition isObject (v : value) : bool :=
  match v with VObject _ | VArray _ => true | _ => false end.

(** A scalar is what both traversals treat as a leaf. *)
Definition isScalar (v : value) : bool := negb (isObject v).

(** ToString, as performed by string concatenation and template
    literals. *)
Fixpoint toString (v : value) : string :=
  match v with
  | VUndefined => "undefined"
  | VNull => "null"
  | VBool true => "true"
  | VBool false => "false"
  | VNumber z => Str.ofZ z
  | VString s => s
  | VObject _ => "[object Object]"
  | VArray l =>
      String.concat ","
        ((fix each (l : list value) : list string :=
            match l with
            | [] => []
            | x :: r =>
                (match x with
                 | VUndefined | VNull => ""
                 | _ => toString x
                 end) :: each r
            end) l)
  end.

(** Property lookup in a property list: first binding of the key. *)
Fixpoint lookup (A : Type) (k : string) (l : list (string * A)) : option A :=
  match l with
  | [] => None
  | (k', v) :: r => if String.eqb k' k then Some v else lookup k r
  end.

(** Property update: overwrite the binding in place, or append a new
    property after the existing ones. *)
Fixpoint update (A : Type) (k : string) (v : A) (l : list (string * A))
  : list (string * A) :=
  match l with
  | [] => [(k, v)]
  | (k', v') :: r =>
      if String.eqb k' k then (k, v) :: r else (k', v') :: update k v r
  end.

(** [arr[i] = v]: in range overwrites, beyond the end JS extends the
    array, leaving holes. *)
Fixpoint setNth (i : nat) (v : value) (l : list value) : list value :=
  match i, l with
  | O, [] => [v]
  | O, _ :: r => v :: r
  | S i', [] => VUndefined :: setNth i' v []
  | S i', x :: r => x :: setNth i' v r
  end.

(** [object[key]] for reading.  Strings expose [length] and their
    characters; inherited (prototype) properties are not part of the
    tree model and read as [undefined]. *)
Definition getProp (object : value) (key : string) : value :=
  match object with
  | VObject fields =>
      match lookup key fields with Some v => v | None => VUndefined end
  | VArray elems =>
      match Str.toIndex key with
      | Some i => nth i elems VUndefined
      | None =>
          if String.eqb key "length"
          then VNumber (Z.of_nat (List.length elems)) else VUndefined
      end
  | VString s =>
      match Str.toIndex key with
      | Some i =>
          match String.get i s with
          | Some c => VString (String c EmptyString)
          | None => VUndefined
          end
      | None =>
          if String.eqb key "length"
          then VNumber (Z.of_nat (String.length s)) else VUndefined
      end
  | _ => VUndefined
  end.

(** [key in object], used by lodash only for keys that contain a dot:
    such keys exist on plain objects only. *)
Definition hasProp (object : value) (key : string) : bool :=
  match object with
  | VObject fields =>
      match lookup key fields with Some _ => true | None => false end
  | _ => false
  end.

(** [object[key] = v] (lodash [assignValue]).  An array is modelled by
    its elements: a non-index property assigned to an array is not
    represented and leaves the elements as they are. *)
Definition assignValue (object : value) (key : string) (v : value) : value :=
  match object with
  | VObject fields => VObject (update key v fields)
  | VArray elems =>
      match Str.toIndex key with
      | Some i => VArray (setNth i v elems)
      | None => VArray elems
      end
  | _ => object
  end.

End JS.

(* ================================================================== *)
(** * lodash: get, set, template *)
(* ================================================================== *)

Module Lodash.

(** [stringToPath] on a dotted path: split at every dot.  Attribute paths
    of the configuration are dotted; bracket notation only occurs in the
    write paths the traversals build, which the model keeps in parsed
    form (see [templatizeAttr]). *)
Definition stringToPath (s : string) : list string :=
  Str.splitOn "." EmptyString s.

(** [castPath]: a string that is itself a property of the object is a
    one-segment path. *)
Definition castPath (path : string) (object : value) : list string :=
  if JS.hasProp object path then [path] else stringToPath path.

(** [baseGet]: follow the segments, stopping at [null]/[undefined]. *)
Fixpoint baseGet (object : value) (path : list string) : value :=
  match path with
  | [] => object
  | key :: rest =>
      match object with
      | VUndefined | VNull => VUndefined
      | _ => baseGet (JS.getProp object key) rest
      end
  end.

(** [get(object, path)]. *)
Definition get (object : value) (path : string) : value :=
  match object with
  | VUndefined | VNull => VUndefined
  | _ =>
      match castPath path object with
      | [] => VUndefined
      | p => baseGet object p
      end
  end.

(** [baseSet] over an already parsed path.  A missing or scalar
    intermediate is replaced by a fresh array when the next segment is an
    index and by a fresh object otherwise. *)
Fixpoint baseSet (nested : value) (path : list string) (v : value) : value :=
  match path with
  | [] => nested
  | key :: rest =>
      match rest with
      | [] => JS.assignValue nested key v
      | next :: _ =>
          let objValue := JS.getProp nested key in
          let newValue :=
            if JS.isObject objValue then objValue
            else match Str.toIndex next with
                 | Some _ => VArray []
                 | None => VObject []
                 end in
          JS.assignValue nested key (baseSet newValue rest v)
      end
  end.

(** [set(object, path, value)]; returns the object as mutated. *)
Definition set (object : value) (path : list string) (v : value) : value :=
  if JS.isObject object then baseSet object path v else object.

(** A compiled template: literal text and [${name}] interpolations. *)
Inductive piece : Type :=
| Text (s : string)
| Interpolate (name : string).

(** [template(markup)], for markup whose only delimiters are the ES
    ones.  [name = Some n] while reading the inside of [${...}];
    an interpolation that is never closed is literal text. *)
Fixpoint scan (s : string) (text : string) (name : option string)
  : list piece :=
  match name with
  | None =>
      match s with
      | EmptyString => [Text text]
      | String c r =>
          if Ascii.eqb c "$" then
            match r with
            | String c2 r2 =>
                if Ascii.eqb c2 "{" then scan r2 text (Some EmptyString)
                else scan r (text ++ String c EmptyString) None
            | EmptyString => scan r (text ++ String c EmptyString) None
            end
          else scan r (text ++ String c EmptyString) None
      end
  | Some n =>
      match s with
      | EmptyString => [Text (text ++ "${" ++ n)]
      | String c r =>
          if Ascii.eqb c "}" then
            Text text :: Interpolate n :: scan r EmptyString None
          else scan r text (Some (n ++ String c EmptyString))
      end
  end.

Definition template (markup : string) : list piece :=
  scan markup EmptyString None.

End Lodash.

(* ================================================================== *)
(** * React: escapeTextContentForBrowser *)
(* ================================================================== *)

Module React.

(** [escapeHtml]'s replacement of one character. *)
Definition escapeChar (c : ascii) : string :=
  if Ascii.eqb c (ascii_of_nat 34) then "&quot;"
  else if Ascii.eqb c "&" then "&amp;"
  else if Ascii.eqb c "'" then "&#x27;"
  else if Ascii.eqb c "<" then "&lt;"
  else if Ascii.eqb c ">" then "&gt;"
  else String c EmptyString.

Fixpoint escapeHtml (s : string) : string :=
  match s with
  | EmptyString => EmptyString
  | String c r => escapeChar c ++ escapeHtml r
  end.

(** Booleans and numbers are stringified; everything else is stringified
    and then escaped. *)
Definition escapeTextContentForBrowser (text : value) : string :=
  match text with
  | VBool _ | VNumber _ => JS.toString text
  | _ => escapeHtml (JS.toString text)
  end.

End React.

(* ================================================================== *)
(** * Completions and effects *)
(* ================================================================== *)

(** What a JavaScript call can throw here. *)
Inductive exn : Type :=
| TypeError (what : string)
| ReferenceError (name : string)
| UserError (what : string).

(** A call either returns or throws. *)
Inductive completion (A : Type) : Type :=
| Normal (a : A)
| Throw (e : exn).
Arguments Normal {A} a.
Arguments Throw {A} e.

(** The FlatKey -> escaped value table ([lookupPropTable],
    [templateAttrValues]). *)
Definition table : Type := list (string * string).

(** [compiled(values)]: splice the values in; an unbound name throws. *)
Fixpoint runTemplate (compiled : list Lodash.piece) (values : table)
  : completion string :=
  match compiled with
  | [] => Normal EmptyString
  | Lodash.Text s :: rest =>
      match runTemplate rest values with
      | Normal out => Normal (s ++ out)
      | Throw e => Throw e
      end
  | Lodash.Interpolate n :: rest =>
      match JS.lookup n values with
      | None => Throw (ReferenceError n)
      | Some v =>
          match runTemplate rest values with
          | Normal out => Normal (v ++ out)
          | Throw e => Throw e
          end
      end
  end.

(* ================================================================== *)
(** * JSON.stringify *)
(* ================================================================== *)

Module JSON.

Definition hexDigit (n : nat) : ascii :=
  if Nat.ltb n 10 then ascii_of_nat (48 + n) else ascii_of_nat (87 + n).

(** One character inside a JSON string literal. *)
Definition quoteChar (c : ascii) : string :=
  let n := nat_of_ascii c in
  if Nat.eqb n 34 then String (ascii_of_nat 92) (String c EmptyString)
  else if Nat.eqb n 92 then "\\"
  else if Nat.eqb n 8 then "\b"
  else if Nat.eqb n 9 then "\t"
  else if Nat.eqb n 10 then "\n"
  else if Nat.eqb n 12 then "\f"
  else if Nat.eqb n 13 then "\r"
  else if Nat.ltb n 32 then
    "\u00" ++ String (hexDigit (n / 16))
                (String (hexDigit (n mod 16)) EmptyString)
  else String c EmptyString.

Fixpoint quoteBody (s : string) : string :=
  match s with
  | EmptyString => EmptyString
  | String c r => quoteChar c ++ quoteBody r
  end.

Definition quote (s : string) : string :=
  String (ascii_of_nat 34) (quoteBody s ++ String (ascii_of_nat 34) EmptyString).

(** [JSON.stringify] of a value sitting inside an object or array:
    an [undefined] array element prints as [null], an [undefined]
    property is left out. *)
Fixpoint stringify (v : value) : string :=
  match v with
  | VUndefined | VNull => "null"
  | VBool true => "true"
  | VBool false => "false"
  | VNumber z => Str.ofZ z
  | VString s => quote s
  | VObject fields =>
      "{" ++ String.concat ","
        ((fix each (l : list (string * value)) : list string :=
            match l with
            | [] => []
            | (k, x) :: r =>
                match x with
                | VUndefined => each r
                | _ => (quote k ++ ":" ++ stringify x) :: each r
                end
            end) fields) ++ "}"
  | VArray elems =>
      "[" ++ String.concat ","
        ((fix each (l : list value) : list string :=
            match l with
            | [] => []
            | x :: r => stringify x :: each r
            end) elems) ++ "]"
  end.

End JSON.

(* ================================================================== *)
(** * lib/index.js *)
(* ================================================================== *)

(** A cache-key generator: called with the props tree, it returns any
    value or throws. *)
Definition keyGen : Type := value -> completion value.

Definition defaultCacheKeyFunction : keyGen :=
  fun _ => Normal (VString "_defaultKey").

Definition genAttrBasedKeyFunction (attrs : list string) : keyGen :=
  fun props =>
    Normal (VString
      (fold_left
         (fun key attr =>
            let val := Lodash.get props attr in
            key ++ (if JS.isObject val then JSON.stringify val
                    else JS.toString val))
         attrs EmptyString)).

(** One entry of [config.components] as the caller writes it: a bare
    generator function, or an object with optional fields. *)
Inductive componentEntry : Type :=
| EntryFunction (f : keyGen)
| EntryObject (gen : option keyGen) (attrs : option (list string))
              (tmpl : option (list string)).

(** The entry after the constructor has resolved its generator. *)
Record cacheConfig : Type := {
  cacheKeyGen : keyGen;
  templateAttrs : list string   (* [templateAttrs || []] *)
}.

(** Constructor, lines 63-73: explicit generator, else attribute
    concatenation over a non-empty [cacheAttrs], else the constant key. *)
Definition resolveConfig (e : componentEntry) : cacheConfig :=
  match e with
  | EntryFunction f => {| cacheKeyGen := f; templateAttrs := [] |}
  | EntryObject gen attrs tmpl =>
      {| cacheKeyGen :=
           match gen with
           | Some f => f
           | None =>
               match attrs with
               | Some (a :: r) => genAttrBasedKeyFunction (a :: r)
               | _ => defaultCacheKeyFunction
               end
           end;
         templateAttrs := match tmpl with Some l => l | None => [] end |}
  end.

(** What the store keeps per key. *)
Record cacheEntry : Type := {
  markup : string;
  compiled : option (list Lodash.piece);
  rootId : string
}.

(** The store: [get] and [set] of a keyed map, as the plain-object cache
    of the test-suite implements them.  Eviction by capacity or age is the
    store's own affair and is not modelled. *)
Definition store : Type := list (string * cacheEntry).

Definition storeGet (s : store) (key : string) : option cacheEntry :=
  JS.lookup key s.

Definition storeSet (s : store) (key : string) (e : cacheEntry) : store :=
  JS.update key e s.

Inductive eventKind : Type := hit | miss.

(** [{type: "cache", event, cmpName, loadTimeNS}]. *)
Record cacheEvent : Type := {
  event : eventKind;
  cmpName : string;
  loadTimeNS : option Z
}.

(** The optimizer instance ([self]). *)
Record optimizer : Type := {
  components : list (string * cacheConfig);
  enabled : bool;
  eventCallback : bool;               (* is an observer registered? *)
  shouldCollectLoadTimeStats : bool
}.

(** What lives beyond one render call: the store, the callbacks queued
    with [process.nextTick], and what the observer has been handed. *)
Record world : Type := {
  lruCache : store;
  tickQueue : list cacheEvent;
  observed : list cacheEvent
}.

(** The element being mounted and its host renderer. [mount] reads the
    element's props tree as it is when called; [hrtimeNS] is the
    nanosecond field [process.hrtime] reports for that call. *)
Record component : Type := {
  displayName : option string;
  name : string;
  props : value;
  mount : value -> string -> string;
  hrtimeNS : Z
}.

(** Everything a render call does that an outsider can see. *)
Inductive effect : Type :=
| CacheGet (key : string)
| CacheSet (key : string) (e : cacheEntry)
| HostRender (p : value) (rootID : string)
| Emit (ev : cacheEvent).

(** [_attrKey]: double every underscore, then turn every dot into an
    underscore. *)
Definition attrKey (propKey : string) : string :=
  Str.replaceChar "." "_" (Str.replaceChar "_" "__" propKey).

(** Reading a FlatKey back: a doubled underscore is an underscore, a
    single one a dot. *)
Fixpoint unflatten (s : string) : string :=
  match s with
  | EmptyString => EmptyString
  | String c r =>
      if Ascii.eqb c "_" then
        match r with
        | String c2 r2 =>
            if Ascii.eqb c2 "_" then String "_" (unflatten r2)
            else String "." (unflatten r)
        | EmptyString => String "." EmptyString
        end
      else String c (unflatten r)
  end.

(** A read path in which no dot is directly followed by an underscore or
    by another dot: no segment is empty or begins with an underscore. *)
Fixpoint separable (s : string) : bool :=
  match s with
  | EmptyString => true
  | String c r =>
      (if Ascii.eqb c "." then
         match r with
         | String c2 _ => negb (Ascii.eqb c2 "_") && negb (Ascii.eqb c2 ".")
         | EmptyString => true
         end
       else true) && separable r
  end.

(** The substitution token written in place of a leaf. *)
Definition token (propKey : string) : string :=
  "${" ++ attrKey propKey ++ "}".

(** The three things [templatizeAttr] mutates: the wrapper [{a: props}],
    the lookup table and the array-shape accumulator. *)
Record flat : Type := {
  origProps : value;
  lookupPropTable : table;
  addlCacheForArr : list string
}.

(** [templatizeAttr], lines 115-133.  [arrNotaKey] is the write path in
    parsed form: the source's [propKey["key"]] and [propKey[i]] each add
    one segment. *)
Fixpoint templatizeAttr (propValue : value) (propKey : string)
    (arrNotaKey : list string) (st : flat) {struct propValue} : flat :=
  match propValue with
  | VObject fields =>
      (fix mapKeys (l : list (string * value)) (st : flat) : flat :=
         match l with
         | [] => st
         | (key, v) :: r =>
             mapKeys r (templatizeAttr v (propKey ++ "." ++ key)
                          (arrNotaKey ++ [key])%list st)
         end) fields st
  | VArray elems =>
      (fix each (l : list value) (i : nat) (st : flat) : flat :=
         match l with
         | [] => st
         | v :: r =>
             each r (S i) (templatizeAttr v (propKey ++ "." ++ Str.ofNat i)
                             (arrNotaKey ++ [Str.ofNat i])%list st)
         end) elems 0
        {| origProps := origProps st;
           lookupPropTable := lookupPropTable st;
           addlCacheForArr :=
             (addlCacheForArr st
                ++ [(propKey ++ "_" ++ Str.ofNat (List.length elems))%string])%list |}
  | _ =>
      {| origProps :=
           Lodash.set (origProps st) arrNotaKey (VString (token propKey));
         lookupPropTable :=
           JS.update (attrKey propKey)
             (React.escapeTextContentForBrowser propValue)
             (lookupPropTable st);
         addlCacheForArr := addlCacheForArr st |}
  end.

(** [lookupPropTable[_attrKey]] as a value. *)
Definition tableRead (t : table) (k : string) : value :=
  match JS.lookup k t with
  | Some s => VString s
  | None => VUndefined
  end.

(** [restoreAttr], lines 98-113: the same walk, writing the table's
    value at every leaf.  Returns the wrapper as mutated. *)
Fixpoint restoreAttr (propValue : value) (lookupPropTable : table)
    (propKey : string) (arrNotaKey : list string) (origProps : value)
    {struct propValue} : value :=
  match propValue with
  | VObject fields =>
      (fix mapKeys (l : list (string * value)) (origProps : value) : value :=
         match l with
         | [] => origProps
         | (key, v) :: r =>
             mapKeys r (restoreAttr v lookupPropTable (propKey ++ "." ++ key)
                          (arrNotaKey ++ [key])%list origProps)
         end) fields origProps
  | VArray elems =>
      (fix each (l : list value) (i : nat) (origProps : value) : value :=
         match l with
         | [] => origProps
         | v :: r =>
             each r (S i)
               (restoreAttr v lookupPropTable (propKey ++ "." ++ Str.ofNat i)
                  (arrNotaKey ++ [Str.ofNat i])%list origProps)
         end) elems 0 origProps
  | _ =>
      Lodash.set origProps arrNotaKey
        (tableRead lookupPropTable (attrKey propKey))
  end.

(** The state carried through [templateAttrs.forEach]: the caller's props
    tree as mutated so far, [templateAttrValues] and [addlCacheForArr]. *)
Record flattened : Type := {
  propsNow : value;
  templateAttrValues : table;
  arrayShapes : list string
}.

(** The wrapper [{a: props}] aliases the caller's tree: what [set] did
    below [a] has happened to [props] itself.  (A non-object [props]
    cannot be mutated; [set] then replaces the wrapper's field only.) *)
Definition wrapProps (p : value) : value := VObject [("a", p)].

Definition unwrapProps (p wrapper : value) : value :=
  if JS.isObject p then JS.getProp wrapper "a" else p.

(** One iteration of lines 175-179. *)
Definition templatizeOne (s : flattened) (attr : string) : flattened :=
  let value := Lodash.get (propsNow s) attr in
  let r := templatizeAttr value ("a." ++ attr)
             (Lodash.stringToPath ("a." ++ attr))
             {| origProps := wrapProps (propsNow s);
                lookupPropTable := templateAttrValues s;
                addlCacheForArr := arrayShapes s |} in
  {| propsNow := unwrapProps (propsNow s) (origProps r);
     templateAttrValues := lookupPropTable r;
     arrayShapes := addlCacheForArr r |}.

Definition templatizeAll (attrs : list string) (p : value) : flattened :=
  fold_left templatizeOne attrs
    {| propsNow := p; templateAttrValues := []; arrayShapes := [] |}.

(** One iteration of lines 136-140. *)
Definition restoreOne (values : table) (p : value) (attr : string) : value :=
  let value := Lodash.get p attr in
  unwrapProps p
    (restoreAttr value values ("a." ++ attr)
       (Lodash.stringToPath ("a." ++ attr)) (wrapProps p)).

Definition restoreAll (values : table) (attrs : list string) (p : value)
  : value :=
  fold_left (restoreOne values) attrs p.

(** [restorePropsAndProcessTemplate], lines 135-142: write the table back
    into the caller's tree, then run the compiled template.  Calling a
    [null] template throws after the tree has been written. *)
Definition restorePropsAndProcessTemplate
    (compiled : option (list Lodash.piece)) (attrs : list string)
    (values : table) (p : value) : completion string * value :=
  let p' := restoreAll values attrs p in
  match compiled with
  | Some t => (runTemplate t values, p')
  | None => (Throw (TypeError "compiled is not a function"), p')
  end.

(** [curEl.type.displayName || curEl.type.name]. *)
Definition componentName (c : component) : string :=
  match displayName c with
  | Some EmptyString | None => name c
  | Some d => d
  end.

(** Lines 145-149. *)
Definition shouldComponentBeCached (self : optimizer) (c : component) : bool :=
  let registered (n : string) :=
    match JS.lookup n (components self) with Some _ => true | None => false end in
  match displayName c with
  | Some d => registered d || registered (name c)
  | None => registered (name c)
  end.

(** The inner [eventCallback], lines 88-94: with an observer registered
    the event is queued for the next tick; nothing is delivered now. *)
Definition queueEvent (self : optimizer) (ev : cacheEvent) (w : world) : world :=
  if eventCallback self
  then {| lruCache := lruCache w;
          tickQueue := (tickQueue w ++ [ev])%list;
          observed := observed w |}
  else w.


(** What one render call leaves behind. *)
Record outcome : Type := {
  result : completion string;
  propsAfter : value;
  worldAfter : world;
  effects : list effect
}.

(** The text [data-reactid=] followed by a double quote and the id: what
    the hit path searches for and replaces. *)
Definition reactid (id : string) : string :=
  "data-reactid=" ++ String (ascii_of_nat 34) id.

(** [cmpName:generatedKey:addlCacheForArr], line 180. *)
Definition cacheKeyOf (cmp : string) (generatedKey : value)
    (shapes : list string) : string :=
  cmp ++ ":" ++ JS.toString generatedKey ++ ":" ++ String.concat "," shapes.

(** The host renderer called directly. *)
Definition hostMount (c : component) (rootID : string) (w : world) : outcome :=
  {| result := Normal (mount c (props c) rootID);
     propsAfter := props c;
     worldAfter := w;
     effects := [HostRender (props c) rootID] |}.

(** The wrapped [mountComponent], lines 165-208. *)
Definition mountComponentWrapper (self : optimizer) (c : component)
    (rootID : string) (w : world) : outcome :=
  let cmp := componentName c in
  match JS.lookup cmp (components self) with
  | None =>
      {| result := Throw (TypeError "cacheKeyGen of undefined");
         propsAfter := props c; worldAfter := w; effects := [] |}
  | Some cfg =>
      match cacheKeyGen cfg (props c) with
      | Throw e =>
          {| result := Throw e;
             propsAfter := props c; worldAfter := w; effects := [] |}
      | Normal VNull => hostMount c rootID w
      | Normal generatedKey =>
          let attrs := templateAttrs cfg in
          let fl := templatizeAll attrs (props c) in
          let cacheKey := cacheKeyOf cmp generatedKey (arrayShapes fl) in
          match storeGet (lruCache w) cacheKey with
          | Some cachedObj =>
              let ev := {| event := hit; cmpName := cmp; loadTimeNS := None |} in
              let w1 := queueEvent self ev w in
              let '(cacheMarkup, p') :=
                match attrs with
                | [] => (Normal (markup cachedObj), propsNow fl)
                | _ => restorePropsAndProcessTemplate (compiled cachedObj)
                         attrs (templateAttrValues fl) (propsNow fl)
                end in
              {| result :=
                   match cacheMarkup with
                   | Normal m =>
                       Normal (Str.replaceAll (reactid (rootId cachedObj))
                                 (reactid rootID) m)
                   | Throw e => Throw e
                   end;
                 propsAfter := p';
                 worldAfter := w1;
                 effects := [CacheGet cacheKey; Emit ev] |}
          | None =>
              let markup := mount c (propsNow fl) rootID in
              let compiledMarkup :=
                match attrs with
                | [] => None
                | _ => Some (Lodash.template markup)
                end in
              let ev := {| event := miss; cmpName := cmp;
                           loadTimeNS :=
                             if shouldCollectLoadTimeStats self
                             then Some (hrtimeNS c) else None |} in
              let w1 := queueEvent self ev w in
              let entry := {| markup := markup; compiled := compiledMarkup;
                              rootId := rootID |} in
              let w2 := {| lruCache := storeSet (lruCache w1) cacheKey entry;
                           tickQueue := tickQueue w1;
                           observed := observed w1 |} in
              let '(out, p') :=
                match attrs with
                | [] => (Normal markup, propsNow fl)
                | _ => restorePropsAndProcessTemplate compiledMarkup
                         attrs (templateAttrValues fl) (propsNow fl)
                end in
              {| result := out;
                 propsAfter := p';
                 worldAfter := w2;
                 effects := [CacheGet cacheKey; HostRender (propsNow fl) rootID;
                             Emit ev; CacheSet cacheKey entry] |}
          end
      end
  end.

(** What [WrappedInstantiateReactComponent] installs, lines 159-212: the
    wrapper for a registered component while the optimizer is enabled,
    the host renderer otherwise. *)
Definition mountComponent (self : optimizer) (c : component)
    (rootID : string) (w : world) : outcome :=
  if enabled self && shouldComponentBeCached self c
  then mountComponentWrapper self c rootID w
  else hostMount c rootID w.

(** [enable], [cacheLength], [cacheReset], lines 230-244. *)
Definition enable (self : optimizer) (enableFlag : bool) : optimizer :=
  {| components := components self;
     enabled := enableFlag;
     eventCallback := eventCallback self;
     shouldCollectLoadTimeStats := shouldCollectLoadTimeStats self |}.



(** How a call went, read off its effects. *)
Fixpoint hostRenders (l : list effect) : nat :=
  match l with
  | [] => 0
  | HostRender _ _ :: r => S (hostRenders r)
  | _ :: r => hostRenders r
  end.

Fixpoint emitted (l : list effect) : list cacheEvent :=
  match l with
  | [] => []
  | Emit ev :: r => ev :: emitted r
  | _ :: r => emitted r
  end.

Fixpoint storeAccesses (l : list effect) : nat :=
  match l with
  | [] => 0
  | CacheGet _ :: r | CacheSet _ _ :: r => S (storeAccesses r)
  | _ :: r => storeAccesses r
  end.

(* ================================================================== *)
(** * Shapes and paths of props trees *)
(* ================================================================== *)


(** The array-shape entries of a value flattened at [propKey]: for every
    array, in the order of the walk, its read path and its length. *)
Fixpoint shapesOf (propKey : string) (v : value) {struct v} : list string :=
  match v with
  | VObject fields =>
      (fix mapKeys (l : list (string * value)) : list string :=
         match l with
         | [] => []
         | (key, x) :: r =>
             (shapesOf (propKey ++ "." ++ key) x ++ mapKeys r)%list
         end) fields
  | VArray elems =>
      (propKey ++ "_" ++ Str.ofNat (List.length elems))
      :: (fix each (l : list value) (i : nat) : list string :=
            match l with
            | [] => []
            | x :: r =>
                (shapesOf (propKey ++ "." ++ Str.ofNat i) x ++ each r (S i))%list
            end) elems 0
  | _ => []
  end.






(** The leaves of a value flattened at [propKey], each with its read
    path, in the order of the walk. *)
Fixpoint leavesOf (propKey : string) (v : value) {struct v}
  : list (string * value) :=
  match v with
  | VObject fields =>
      (fix mapKeys (l : list (string * value)) : list (string * value) :=
         match l with
         | [] => []
         | (key, x) :: r =>
             (leavesOf (propKey ++ "." ++ key) x ++ mapKeys r)%list
         end) fields
  | VArray elems =>
      (fix each (l : list value) (i : nat) : list (string * value) :=
         match l with
         | [] => []
         | x :: r =>
             (leavesOf (propKey ++ "." ++ Str.ofNat i) x ++ each r (S i))%list
         end) elems 0
  | _ => [(propKey, v)]
  end.















(** The table after binding the escaped text of a list of leaves. *)
Definition bindLeaves (leaves : list (string * value)) (values : table) : table :=
  fold_left
    (fun t kx =>
       JS.update (attrKey (fst kx))
         (React.escapeTextContentForBrowser (snd kx)) t)
    leaves values.


Fixpoint leavesElems (propKey : string) (l : list value) (i : nat)
  : list (string * value) :=
  match l with
  | [] => []
  | x :: r =>
      (leavesOf (propKey ++ "." ++ Str.ofNat i) x
         ++ leavesElems propKey r (S i))%list
  end.





(** Induction over props trees, children included. *)
Section ValueInduction.
Variable P : value -> Prop.
Hypothesis Hundefined : P VUndefined.
Hypothesis Hnull : P VNull.
Hypothesis Hbool : forall b, P (VBool b).
Hypothesis Hnumber : forall z, P (VNumber z).
Hypothesis Hstring : forall s, P (VString s).
Hypothesis Hobject :
    forall fields, Forall (fun kv => P (snd kv)) fields -> P (VObject fields).
Hypothesis Harray : forall elems, Forall P elems -> P (VArray elems).

Fixpoint value_ind (v : value) : P v :=
    match v with
    | VUndefined => Hundefined
    | VNull => Hnull
    | VBool b => Hbool b
    | VNumber z => Hnumber z
    | VString s => Hstring s
    | VObject fields =>
        Hobject
          ((fix all (l : list (string * value))
              : Forall (fun kv => P (snd kv)) l :=
              match l with
              | [] => Forall_nil _
              | kv :: r => Forall_cons kv (value_ind (snd kv)) (all r)
              end) fields)
    | VArray elems =>
        Harray
          ((fix all (l : list value) : Forall P l :=
              match l with
              | [] => Forall_nil _
              | x :: r => Forall_cons x (value_ind x) (all r)
              end) elems)
    end.
End ValueInduction.

(* ================================================================== *)
(** * Components of the test-suite *)
(* ================================================================== *)

Module Examples.

(** React drops [undefined], [null] and boolean children and escapes
    the text of the others. *)
Definition childText (v : value) : string :=
  match v with
  | VUndefined | VNull | VBool _ => EmptyString
  | _ => React.escapeTextContentForBrowser v
  end.

Definition div (rootID body : string) : string :=
  "<div " ++ reactid rootID ++ String (ascii_of_nat 34) ">" ++ body ++ "</div>".

(** [render() { return React.DOM.div(null, this.props.text); }] *)
Definition helloMount (p : value) (rootID : string) : string :=
  div rootID (childText (JS.getProp p "text")).

Definition HelloWorld (p : value) : component :=
  {| displayName := None; name := "HelloWorld"; props := p;
     mount := helloMount; hrtimeNS := 1500 |}.

(** A component showing two nested attributes, [x_.y] and [x._y]. *)
Definition pairMount (p : value) (rootID : string) : string :=
  div rootID
    (childText (Lodash.get p "x_.y") ++ "|" ++ childText (Lodash.get p "x._y")).

Definition Pair (p : value) : component :=
  {| displayName := None; name := "Pair"; props := p;
     mount := pairMount; hrtimeNS := 1500 |}.

(** The generator of "should cache components only when key is not
    null": [props.text.indexOf("X") > -1 ? props.text : null]. *)
Definition keyWhenX : keyGen :=
  fun p =>
    match JS.getProp p "text" with
    | VString s =>
        if Str.mem "X" s then Normal (VString s) else Normal VNull
    | VUndefined | VNull =>
        Throw (TypeError "Cannot read property indexOf of undefined")
    | _ => Throw (TypeError "props.text.indexOf is not a function")
    end.

Definition optimizerOf (cmp : string) (e : componentEntry) : optimizer :=
  {| components := [(cmp, resolveConfig e)];
     enabled := true;
     eventCallback := true;
     shouldCollectLoadTimeStats := false |}.

(** [templateAttrs: ["text"]] *)
Definition templated : optimizer :=
  optimizerOf "HelloWorld" (EntryObject None None (Some ["text"])).

(** [cacheKeyGen: keyWhenX] *)
Definition conditional : optimizer :=
  optimizerOf "HelloWorld" (EntryObject (Some keyWhenX) None None).

(** [templateAttrs: ["x_", "x"]] *)
Definition paired : optimizer :=
  optimizerOf "Pair" (EntryObject None None (Some ["x_"; "x"])).


















Definition fresh : world :=
  {| lruCache := []; tickQueue := []; observed := [] |}.

End Examples.

(** A sequence of render calls on one optimizer, each call seeing the
    world the previous one left. *)
Fixpoint renderAll (self : optimizer) (calls : list (component * string))
    (w : world) : world * list effect :=
  match calls with
  | [] => (w, [])
  | (c, rootID) :: rest =>
      let o := mountComponent self c rootID w in
      let '(w', es) := renderAll self rest (worldAfter o) in
      (w', (effects o ++ es)%list)
  end.

(** The same call made [n] times. *)
Definition repeatCall (n : nat) (c : component) (rootID : string)
  : list (component * string) :=
  List.repeat (c, rootID) n.

(** Hit, miss or neither, read off the effects of one call: the store was
    consulted and the host renderer was (miss) or was not (hit) run. *)
Inductive callKind : Type := IsHit | IsMiss | IsBypass.

Definition kindOf (es : list effect) : callKind :=
  match es with
  | CacheGet _ :: _ =>
      match hostRenders es with
      | O => IsHit
      | S _ => IsMiss
      end
  | _ => IsBypass
  end.

(* ================================================================== *)
(** * Notions used in the statements and proofs *)
(* ================================================================== *)

(** The effects, the world and the kind of a wrapped call, case by case. *)
Inductive wrapperCase (self : optimizer) (c : component) (rootID : string)
    (w : world) (o : outcome) : Prop :=
| CaseUnconfigured :
    JS.lookup (componentName c) (components self) = None ->
    effects o = [] -> worldAfter o = w -> propsAfter o = props c ->
    wrapperCase self c rootID w o
| CaseThrows cfg e :
    JS.lookup (componentName c) (components self) = Some cfg ->
    cacheKeyGen cfg (props c) = Throw e ->
    result o = Throw e -> effects o = [] -> worldAfter o = w ->
    propsAfter o = props c -> wrapperCase self c rootID w o
| CaseNull cfg :
    JS.lookup (componentName c) (components self) = Some cfg ->
    cacheKeyGen cfg (props c) = Normal VNull ->
    o = hostMount c rootID w -> wrapperCase self c rootID w o
| CaseHit cfg g cachedObj :
    JS.lookup (componentName c) (components self) = Some cfg ->
    cacheKeyGen cfg (props c) = Normal g -> g <> VNull ->
    let fl := templatizeAll (templateAttrs cfg) (props c) in
    let key := cacheKeyOf (componentName c) g (arrayShapes fl) in
    let ev := {| event := hit; cmpName := componentName c; loadTimeNS := None |} in
    storeGet (lruCache w) key = Some cachedObj ->
    effects o = [CacheGet key; Emit ev] ->
    worldAfter o = queueEvent self ev w ->
    propsAfter o
    = restoreAll (templateAttrValues fl) (templateAttrs cfg) (propsNow fl) ->
    wrapperCase self c rootID w o
| CaseMiss cfg g :
    JS.lookup (componentName c) (components self) = Some cfg ->
    cacheKeyGen cfg (props c) = Normal g -> g <> VNull ->
    let fl := templatizeAll (templateAttrs cfg) (props c) in
    let key := cacheKeyOf (componentName c) g (arrayShapes fl) in
    let ev := {| event := miss; cmpName := componentName c;
                 loadTimeNS := if shouldCollectLoadTimeStats self
                               then Some (hrtimeNS c) else None |} in
    storeGet (lruCache w) key = None ->
    (exists entry,
       effects o = [CacheGet key; HostRender (propsNow fl) rootID; Emit ev;
                    CacheSet key entry]
       /\ lruCache (worldAfter o) = storeSet (lruCache w) key entry
       /\ tickQueue (worldAfter o) = tickQueue (queueEvent self ev w)
       /\ observed (worldAfter o) = observed w) ->
    propsAfter o
    = restoreAll (templateAttrValues fl) (templateAttrs cfg) (propsNow fl) ->
    wrapperCase self c rootID w o.










(* ================================================================== *)
(** * The constructor and the instance methods *)
(* ================================================================== *)

(** [config.env]: left out, one name, or a list of names. *)
Inductive envSetting : Type :=
| EnvAbsent
| EnvName (n : string)
| EnvList (names : list string).

(** The configuration object handed to the constructor.  [components]
    lists [config.components] in the order of [Object.keys] (left out
    means empty).  The store the constructor sets up belongs to the
    [world]. *)
Module Config.
Record t : Type := {
  env : envSetting;
  components : list (string * componentEntry);
  disabled : value;
  eventCallback : bool;
  collectLoadTimeStats : bool
}.
End Config.

(** [array.indexOf(x)] on a list of strings: the first position holding
    [x], or -1. *)
Fixpoint indexOfFrom (x : string) (l : list string) (i : Z) : Z :=
  match l with
  | [] => (-1)%Z
  | y :: r => if String.eqb y x then i else indexOfFrom x r (i + 1)%Z
  end.

Definition indexOf (x : string) (l : list string) : Z := indexOfFrom x l 0%Z.

(** Lines 47-49: an empty name is falsy and counts as left out. *)
Definition configuredEnv (config : Config.t) : list string :=
  match Config.env config with
  | EnvAbsent => []
  | EnvName EmptyString => []
  | EnvName n => [n]
  | EnvList names => names
  end.

(** Lines 51-53: "production" is pushed unless it is listed. *)
Definition environments (config : Config.t) : list string :=
  let env := configuredEnv config in
  if (indexOf "production" env <? 0)%Z
  then (env ++ ["production"])%list else env.

(** The constructor, lines 46-83, given [process.env.NODE_ENV] (unset
    reads as [undefined], which no list of names holds).  Outside the
    caching environments nothing is set up and nothing is wrapped:
    [None]. *)
Definition InstantiateReactComponentOptimizer (config : Config.t)
    (nodeEnv : option string) : option optimizer :=
  match nodeEnv with
  | None => None
  | Some e =>
      if (indexOf e (environments config) <? 0)%Z then None
      else
        Some {| components :=
                  map (fun entry => (fst entry, resolveConfig (snd entry)))
                    (Config.components config);
                enabled :=
                  negb (match Config.disabled config with
                        | VBool true => true
                        | _ => false
                        end);
                eventCallback := Config.eventCallback config;
                shouldCollectLoadTimeStats :=
                  Config.collectLoadTimeStats config |}
  end.

(** Lines 18-25: the settings of the store the constructor creates when
    the configuration names none. *)
Module LRU.
End LRU.



(** Rendering with whatever the constructor has set up: without an
    optimizer [instantiateReactComponent] is React's own. *)
Definition mountWith (self : option optimizer) (c : component)
    (rootID : string) (w : world) : outcome :=
  match self with
  | Some o => mountComponent o c rootID w
  | None => hostMount c rootID w
  end.

(* ================================================================== *)
(** * Further notions used in the statements *)
(* ================================================================== *)

(** Characters with a meaning of their own in a regular expression; a
    root id without them is matched as it is written by the pattern of
    lines 189-191. *)
Definition isMetaChar (c : ascii) : bool :=
  existsb (Ascii.eqb c)
    (list_ascii_of_string "\^$.|?*+()[]{}").

Fixpoint literalPattern (s : string) : bool :=
  match s with
  | EmptyString => true
  | String c r => negb (isMetaChar c) && literalPattern r
  end.

(** The store writes among the effects of a call. *)
Fixpoint storeWrites (l : list effect) : list (string * cacheEntry) :=
  match l with
  | [] => []
  | CacheSet k e :: r => (k, e) :: storeWrites r
  | _ :: r => storeWrites r
  end.


(** Text without the characters that open or close markup. *)
Definition markupFree (s : string) : bool :=
  negb (Str.mem "<" s) && negb (Str.mem ">" s)
  && negb (Str.mem (ascii_of_nat 34) s) && negb (Str.mem "'" s).


(** What a miss stores, lines 197 and 202-204: the markup of the host
    renderer, its compiled form when there are template attributes, and
    the root id of the call. *)
Definition storedEntry (attrs : list string) (m rootID : string) : cacheEntry :=
  {| markup := m;
     compiled := match attrs with
                 | [] => None
                 | _ => Some (Lodash.template m)
                 end;
     rootId := rootID |}.

(** What a call returns from the markup it got, lines 205-207 (miss) and
    184-187 (hit): the markup itself without template attributes, the
    compiled template run on this call's table with them. *)
Definition processed (attrs : list string) (m : string)
    (compiled : option (list Lodash.piece)) (values : table)
  : completion string :=
  match attrs with
  | [] => Normal m
  | _ => match compiled with
         | Some t => runTemplate t values
         | None => Throw (TypeError "compiled is not a function")
         end
  end.

(** Lines 189-191: the entry's root id gives way to the call's. *)
Definition rerooted (cachedObj : cacheEntry) (rootID : string)
    (m : completion string) : completion string :=
  match m with
  | Normal s =>
      Normal (Str.replaceAll (reactid (rootId cachedObj)) (reactid rootID) s)
  | Throw e => Throw e
  end.

(** The events of lines 183 and 200-201. *)
Definition hitEvent (c : component) : cacheEvent :=
  {| event := hit; cmpName := componentName c; loadTimeNS := None |}.

Definition missEvent (self : optimizer) (c : component) : cacheEvent :=
  {| event := miss; cmpName := componentName c;
     loadTimeNS := if shouldCollectLoadTimeStats self
                   then Some (hrtimeNS c) else None |}.



(** A table whose values are all escaped text. *)
Definition escapedTable (values : table) : Prop :=
  forall k s, JS.lookup k values = Some s -> markupFree s = true.





(* ================================================================== *)
(** * Properties *)
(* ================================================================== *)

(** ** Property lists *)

Lemma lookup_update_same (A : Type) (k : string) (v : A) (l : list (string * A)) :
  JS.lookup k (JS.update k v l) = Some v.
Proof.
  induction l as [|[k' v'] l IH]; simpl.
  - now rewrite String.eqb_refl.
  - destruct (String.eqb k' k) eqn:E; simpl.
    + now rewrite String.eqb_refl.
    + now rewrite E.
Qed.

Lemma lookup_update_other (A : Type) (k k0 : string) (v : A) (l : list (string * A)) :
  k <> k0 -> JS.lookup k0 (JS.update k v l) = JS.lookup k0 l.
Proof.
  intros Hne. induction l as [|[k' v'] l IH]; simpl.
  - destruct (String.eqb k k0) eqn:E; [apply String.eqb_eq in E; contradiction | reflexivity].
  - destruct (String.eqb k' k) eqn:E; simpl.
    + apply String.eqb_eq in E; subst k'.
      destruct (String.eqb k k0) eqn:E0; [apply String.eqb_eq in E0; contradiction | reflexivity].
    + now rewrite IH.
Qed.

(** ** The control flow of one render call *)

Lemma registered_component (self : optimizer) (c : component) (cfg : cacheConfig) :
  JS.lookup (componentName c) (components self) = Some cfg ->
  shouldComponentBeCached self c = true.
Proof.
  unfold componentName, shouldComponentBeCached. intros H.
  destruct (displayName c) as [[|a d]|]; rewrite H; auto using orb_true_r.
Qed.

Lemma wrapper_installed (self : optimizer) (c : component) (cfg : cacheConfig)
    (rootID : string) (w : world) :
  enabled self = true ->
  JS.lookup (componentName c) (components self) = Some cfg ->
  mountComponent self c rootID w = mountComponentWrapper self c rootID w.
Proof.
  intros He Hc. unfold mountComponent.
  now rewrite He, (registered_component _ _ Hc).
Qed.

Lemma hostRenders_app (a b : list effect) :
  hostRenders (a ++ b) = hostRenders a + hostRenders b.
Proof.
  induction a as [|[] a IH]; simpl; auto.
Qed.

Lemma storeAccesses_app (a b : list effect) :
  storeAccesses (a ++ b) = storeAccesses a + storeAccesses b.
Proof.
  induction a as [|[] a IH]; simpl; auto.
Qed.


(** The restore pass only concerns the props tree: the pair returned by
    [restorePropsAndProcessTemplate] is inspected through these. *)
Lemma queueEvent_store (self : optimizer) (ev : cacheEvent) (w : world) :
  lruCache (queueEvent self ev w) = lruCache w.
Proof. unfold queueEvent. now destruct (eventCallback self). Qed.

Lemma queueEvent_observed (self : optimizer) (ev : cacheEvent) (w : world) :
  observed (queueEvent self ev w) = observed w.
Proof. unfold queueEvent. now destruct (eventCallback self). Qed.


Lemma wrapper_cases (self : optimizer) (c : component) (rootID : string) (w : world) :
  wrapperCase self c rootID w (mountComponentWrapper self c rootID w).
Proof.
  unfold mountComponentWrapper.
  destruct (JS.lookup (componentName c) (components self)) as [cfg|] eqn:Hc.
  2:{ now apply CaseUnconfigured. }
  destruct (cacheKeyGen cfg (props c)) as [g|e] eqn:Hg.
  2:{ now apply CaseThrows with cfg e. }
  assert (Hcases : g = VNull \/ g <> VNull).
  { destruct g; auto; right; discriminate. }
  destruct Hcases as [->|Hnn].
  { now apply CaseNull with cfg. }
  set (fl := templatizeAll (templateAttrs cfg) (props c)).
  set (key := cacheKeyOf (componentName c) g (arrayShapes fl)).
  destruct (storeGet (lruCache w) key) as [cachedObj|] eqn:Hs.
  - apply CaseHit with cfg g cachedObj; auto; fold fl; fold key;
      destruct g; try congruence; unfold storeGet in *; simpl; rewrite ?Hs;
      destruct (templateAttrs cfg);
      try (unfold restorePropsAndProcessTemplate;
           destruct (compiled cachedObj)); reflexivity.
  - apply CaseMiss with cfg g; auto; fold fl; fold key.
    + destruct g; try congruence; unfold storeGet in *; simpl; rewrite ?Hs;
        destruct (templateAttrs cfg);
        try destruct (restorePropsAndProcessTemplate _ _ _ _);
        eexists; simpl; rewrite ?queueEvent_store, ?queueEvent_observed;
        repeat split; reflexivity.
    + destruct g; try congruence; unfold storeGet in *; simpl; rewrite ?Hs;
        destruct (templateAttrs cfg); reflexivity.
Qed.

Lemma renderAll_app (self : optimizer) (a b : list (component * string)) (w : world) :
  renderAll self (a ++ b) w
  = let '(w1, e1) := renderAll self a w in
    let '(w2, e2) := renderAll self b w1 in
    (w2, (e1 ++ e2)%list).
Proof.
  revert w. induction a as [|[c r] a IH]; intros w; simpl.
  - now destruct (renderAll self b w).
  - rewrite IH.
    destruct (renderAll self a (worldAfter (mountComponent self c r w))) as [w1 e1].
    destruct (renderAll self b w1) as [w2 e2].
    now rewrite app_assoc.
Qed.

(** ** Bypass *)

(** C6: a generator returning [null] bypasses the cache: the call is the
    host renderer's, the store is neither read nor written, nothing is
    emitted, and however often the call is repeated the host renderer
    runs every time. *)
Theorem null_key_bypasses_cache (self : optimizer) (c : component)
    (cfg : cacheConfig) (rootID : string) (w : world) (n : nat) :
  enabled self = true ->
  JS.lookup (componentName c) (components self) = Some cfg ->
  cacheKeyGen cfg (props c) = Normal VNull ->
  let o := mountComponent self c rootID w in
  result o = Normal (mount c (props c) rootID)
  /\ effects o = [HostRender (props c) rootID]
  /\ worldAfter o = w
  /\ propsAfter o = props c
  /\ (let '(w', es) := renderAll self (repeatCall n c rootID) w in
      w' = w /\ hostRenders es = n /\ storeAccesses es = 0 /\ emitted es = []).
Proof.
  intros He Hc Hg.
  assert (Hone : forall w0, mountComponent self c rootID w0 = hostMount c rootID w0).
  { intros w0. rewrite (wrapper_installed _ _ _ _ He Hc).
    unfold mountComponentWrapper. now rewrite Hc, Hg. }
  cbv zeta. rewrite Hone. repeat split.
  unfold repeatCall. induction n as [|n IH]; simpl.
  - auto.
  - rewrite Hone. simpl.
    destruct (renderAll self (repeat (c, rootID) n) w) as [w' es].
    destruct IH as (-> & <- & Hs & Hem). simpl. auto.
Qed.

Lemma null_key_bypasses_cache_witness :
  let c := Examples.HelloWorld (VObject [("text", VString "Hello World Y!")]) in
  let o := mountComponent Examples.conditional c "r1" Examples.fresh in
  result o = Normal (Examples.helloMount (props c) "r1")
  /\ effects o = [HostRender (props c) "r1"]
  /\ worldAfter o = Examples.fresh
  /\ propsAfter o = props c
  /\ (let '(w', es) :=
        renderAll Examples.conditional (repeatCall 3 c "r1") Examples.fresh in
      w' = Examples.fresh /\ hostRenders es = 3 /\ storeAccesses es = 0
      /\ emitted es = []).
Proof.
  intros c o.
  apply (@null_key_bypasses_cache Examples.conditional c
           (resolveConfig (EntryObject (Some Examples.keyWhenX) None None))
           "r1" Examples.fresh 3); reflexivity.
Defined.

(** C7, as the code has it: an exception thrown by the generator leaves
    the call as that exception.  Nothing has happened by then: the host
    renderer has not run, the store has not been touched. *)
Theorem keygen_exception_propagates (self : optimizer) (c : component)
    (cfg : cacheConfig) (e : exn) (rootID : string) (w : world) :
  enabled self = true ->
  JS.lookup (componentName c) (components self) = Some cfg ->
  cacheKeyGen cfg (props c) = Throw e ->
  let o := mountComponent self c rootID w in
  result o = Throw e
  /\ hostRenders (effects o) = 0
  /\ storeAccesses (effects o) = 0
  /\ worldAfter o = w
  /\ propsAfter o = props c.
Proof.
  intros He Hc Hg. cbv zeta.
  rewrite (wrapper_installed _ _ _ _ He Hc).
  unfold mountComponentWrapper. rewrite Hc, Hg. simpl. auto.
Qed.

Lemma keygen_exception_propagates_witness :
  let c := Examples.HelloWorld (VObject []) in
  let o := mountComponent Examples.conditional c "r1" Examples.fresh in
  result o = Throw (TypeError "Cannot read property indexOf of undefined")
  /\ hostRenders (effects o) = 0
  /\ storeAccesses (effects o) = 0
  /\ worldAfter o = Examples.fresh
  /\ propsAfter o = props c.
Proof.
  intros c o.
  apply (@keygen_exception_propagates Examples.conditional c
           (resolveConfig (EntryObject (Some Examples.keyWhenX) None None))
           (TypeError "Cannot read property indexOf of undefined")
           "r1" Examples.fresh); reflexivity.
Defined.

(** C7 as stated fails: the generator of the test-suite throws on props
    without [text], and the call does not return the host renderer's
    output. *)
Lemma keygen_exception_is_not_a_bypass :
  let c := Examples.HelloWorld (VObject []) in
  (exists e, Examples.keyWhenX (props c) = Throw e)
  /\ result (mountComponent Examples.conditional c "r1" Examples.fresh)
     <> Normal (mount c (props c) "r1").
Proof.
  split.
  - eexists. reflexivity.
  - discriminate.
Qed.

(** ** Events *)



(** ** Reading and filling the store *)


(** ** Only [null] bypasses *)



(** ** The flat key *)

(** C1, at the failing input: the paths [x_.y] and [x._y] are distinct, yet
    both flatten to [a_x___y].  With both attributes templated the table
    keeps one value for the two leaves and the markup shows it twice
    ("B|B" where the component would show "A|B"). *)
Theorem flatKey_collision :
  let p := VObject [("x_", VObject [("y", VString "A")]);
                    ("x", VObject [("_y", VString "B")])] in
  Lodash.stringToPath "x_.y" <> Lodash.stringToPath "x._y"
  /\ attrKey "a.x_.y" = "a_x___y"
  /\ attrKey "a.x._y" = "a_x___y"
  /\ templateAttrValues (templatizeAll ["x_"; "x"] p) = [("a_x___y", "B")]
  /\ Examples.pairMount p "r1" = Examples.div "r1" "A|B"
  /\ result (mountComponent Examples.paired (Examples.Pair p) "r1" Examples.fresh)
     = Normal (Examples.div "r1" "B|B").
Proof.
  cbv zeta. split; [discriminate|]. repeat split; reflexivity.
Qed.

Lemma attrKey_cons (c : ascii) (r : string) :
  attrKey (String c r)
  = if Ascii.eqb c "_" then String "_" (String "_" (attrKey r))
    else if Ascii.eqb c "." then String "_" (attrKey r)
    else String c (attrKey r).
Proof.
  unfold attrKey. simpl.
  destruct (Ascii.eqb c "_") eqn:E1.
  - reflexivity.
  - simpl. now destruct (Ascii.eqb c ".").
Qed.

Lemma unflatten_dot (d : ascii) (r : string) :
  Ascii.eqb d "_" = false ->
  unflatten (String "_" (String d r)) = String "." (unflatten (String d r)).
Proof. intros H. simpl. now rewrite H. Qed.

Lemma unflatten_other (c : ascii) (r : string) :
  Ascii.eqb c "_" = false ->
  unflatten (String c r) = String c (unflatten r).
Proof. intros H. simpl. now rewrite H. Qed.

Lemma unflatten_attrKey (s : string) :
  separable s = true -> unflatten (attrKey s) = s.
Proof.
  induction s as [|c r IH]; auto.
  intros H. simpl in H. apply andb_true_iff in H as [Hc Hr].
  specialize (IH Hr). rewrite attrKey_cons.
  destruct (Ascii.eqb c "_") eqn:E1.
  - apply Ascii.eqb_eq in E1. subst c.
    change (String "_" (unflatten (attrKey r)) = String "_" r).
    now rewrite IH.
  - destruct (Ascii.eqb c ".") eqn:E2.
    + apply Ascii.eqb_eq in E2. subst c.
      destruct r as [|d r']; auto.
      apply andb_true_iff in Hc as [Hd1 Hd2].
      apply negb_true_iff in Hd1, Hd2.
      rewrite attrKey_cons, Hd1, Hd2 in *.
      rewrite unflatten_dot by exact Hd1. now rewrite IH.
    + rewrite unflatten_other by exact E1. now rewrite IH.
Qed.

(** Where the escaping does tell paths apart: among read paths with no
    empty segment and no segment beginning with an underscore. *)
Lemma attrKey_injective_on_separable (s t : string) :
  separable s = true -> separable t = true ->
  attrKey s = attrKey t -> s = t.
Proof.
  intros Hs Ht H.
  rewrite <- (unflatten_attrKey s Hs), <- (unflatten_attrKey t Ht).
  now rewrite H.
Qed.

(** ** Restoring the props tree *)

(** C3, at the failing input: what [restoreAttr] writes back is the
    escaped text of the table, not the original leaf: the string [a<b]
    comes back as [a&lt;b] and the number [5] as the string "5". *)
Theorem restore_writes_escaped_text :
  let p := VObject [("text", VString "a<b"); ("n", VNumber 5)] in
  let fl := templatizeAll ["text"; "n"] p in
  propsNow fl = VObject [("text", VString "${a_text}"); ("n", VString "${a_n}")]
  /\ templateAttrValues fl = [("a_text", "a&lt;b"); ("a_n", "5")]
  /\ restoreAll (templateAttrValues fl) ["text"; "n"] (propsNow fl)
     = VObject [("text", VString "a&lt;b"); ("n", VString "5")].
Proof.
  cbv zeta. repeat split; reflexivity.
Qed.

(** ** Shapes *)























(** ** What the cache key depends on *)




(** ** Numerals and joined strings *)

Lemma to_uint_nonnil (n : nat) : Nat.to_uint n <> Decimal.Nil.
Proof.
  intros E. pose proof (Unsigned.of_to n) as H. rewrite E in H.
  simpl in H. subst n. vm_compute in E. discriminate E.
Qed.

Lemma toIndex_ofNat (n : nat) : Str.toIndex (Str.ofNat n) = Some n.
Proof.
  unfold Str.toIndex, Str.ofNat.
  rewrite (NilZero.usu _ (to_uint_nonnil n)), Unsigned.of_to.
  now rewrite String.eqb_refl.
Qed.

Lemma ofNat_inj (n m : nat) : Str.ofNat n = Str.ofNat m -> n = m.
Proof.
  intros H. pose proof (toIndex_ofNat n) as Hn. rewrite H, toIndex_ofNat in Hn.
  congruence.
Qed.

Lemma allDigits_uint (d : Decimal.uint) :
  Str.allDigits (NilEmpty.string_of_uint d) = true.
Proof. induction d; simpl; auto. Qed.

Lemma allDigits_ofNat (n : nat) : Str.allDigits (Str.ofNat n) = true.
Proof.
  unfold Str.ofNat, NilZero.string_of_uint.
  destruct (Nat.to_uint n) eqn:E; try (rewrite <- E; apply allDigits_uint).
  reflexivity.
Qed.


Lemma append_inj_l (s a b : string) : s ++ a = s ++ b -> a = b.
Proof.
  induction s as [|c s IH]; simpl; auto. intros H. inversion H. auto.
Qed.

Lemma append_assoc' (a b c : string) : (a ++ b) ++ c = a ++ (b ++ c).
Proof. induction a; simpl; congruence. Qed.




(** ** The array-shape entries *)

(** What a walk adds to the accumulator is [shapesOf]. *)
Lemma templatizeAttr_shapes (v : value) :
  forall (propKey : string) (arrNotaKey : list string) (st : flat),
    addlCacheForArr (templatizeAttr v propKey arrNotaKey st)
    = (addlCacheForArr st ++ shapesOf propKey v)%list.
Proof.
  induction v as [| | b | z | s | fields IH | elems IH] using value_ind;
    intros propKey arrNotaKey st;
    try (simpl; now rewrite app_nil_r).
  - simpl. revert st.
    induction IH as [|[k x] fields IHx _ IHf]; intros st.
    + now rewrite app_nil_r.
    + simpl in IHx. etransitivity; [apply IHf|].
      rewrite IHx. now rewrite app_assoc.
  - simpl.
    set (st' := {| origProps := origProps st;
                   lookupPropTable := lookupPropTable st;
                   addlCacheForArr := _ |}).
    match goal with
    | |- _ = (_ ++ ?e :: ?x)%list =>
        replace (addlCacheForArr st ++ e :: x)%list
          with (addlCacheForArr st' ++ x)%list
          by (subst st'; simpl; now rewrite <- app_assoc)
    end.
    clearbody st'. generalize 0 as i. revert st'.
    induction IH as [|x elems IHx _ IHe]; intros st' i.
    + now rewrite app_nil_r.
    + etransitivity; [apply IHe|].
      rewrite IHx. now rewrite app_assoc.
Qed.













(** ** Templates *)












(** ** Children: reading and assigning one property *)

Unset Implicit Arguments.


















(** ** Paths: reading and replacing a subtree *)















(** ** The two walks as writes at the leaves *)







Lemma bindLeaves_app (a b : list (string * value)) (values : table) :
  bindLeaves (a ++ b) values = bindLeaves b (bindLeaves a values).
Proof. unfold bindLeaves. apply fold_left_app. Qed.

Lemma templatizeAttr_table (v : value) :
  forall (propKey : string) (arrNotaKey : list string) (st : flat),
    lookupPropTable (templatizeAttr v propKey arrNotaKey st)
    = bindLeaves (leavesOf propKey v) (lookupPropTable st).
Proof.
  induction v as [| | b | z | s | fields IH | elems IH] using value_ind;
    intros propKey arrNotaKey st; try reflexivity.
  - simpl. revert st.
    induction IH as [|[k x] fields IHx _ IHf]; intros st; auto.
    simpl in IHx. etransitivity; [apply IHf|].
    now rewrite IHx, bindLeaves_app.
  - simpl.
    set (st' := {| origProps := origProps st;
                   lookupPropTable := lookupPropTable st;
                   addlCacheForArr := _ |}).
    change (lookupPropTable st) with (lookupPropTable st').
    clearbody st'. generalize 0 as i. revert st'.
    induction IH as [|x elems IHx _ IHe]; intros st' i; auto.
    etransitivity; [apply IHe|].
    now rewrite IHx, bindLeaves_app.
Qed.

(** ** Lists without repetition *)










(** ** Leaves, tokens and the table *)


Lemma leavesOf_array (elems : list value) (propKey : string) :
  leavesOf propKey (VArray elems) = leavesElems propKey elems 0.
Proof.
  simpl. generalize 0 as i.
  induction elems as [|x r IH]; intros i; simpl; auto. now rewrite IH.
Qed.




Lemma bindLeaves_other (leaves : list (string * value)) (values : table)
    (key : string) :
  ~ In key (map (fun kx => attrKey (fst kx)) leaves) ->
  JS.lookup key (bindLeaves leaves values) = JS.lookup key values.
Proof.
  revert values. induction leaves as [|[k x] r IH]; intros values Hn; auto.
  simpl in Hn. unfold bindLeaves. simpl. fold (bindLeaves r).
  rewrite IH by tauto. apply lookup_update_other. tauto.
Qed.

Lemma bindLeaves_lookup (leaves : list (string * value)) (values : table)
    (k : string) (x : value) :
  NoDup (map (fun kx => attrKey (fst kx)) leaves) ->
  In (k, x) leaves ->
  JS.lookup (attrKey k) (bindLeaves leaves values)
  = Some (React.escapeTextContentForBrowser x).
Proof.
  revert values. induction leaves as [|[k0 x0] r IH]; intros values Hnd Hin.
  - contradiction.
  - simpl in Hnd. inversion Hnd as [|? ? Hk0 Hr]; subst.
    unfold bindLeaves. simpl. fold (bindLeaves r).
    destruct Hin as [[= -> ->]|Hin].
    + rewrite bindLeaves_other by exact Hk0. apply lookup_update_same.
    + now apply IH.
Qed.


(** ** One template attribute *)








(** ** Several template attributes *)






















(* ================================================================== *)
(** * Further properties of the library *)
(* ================================================================== *)

(** ** The constructor *)

Lemma indexOfFrom_found (x : string) (l : list string) (i : Z) :
  (0 <= i)%Z -> In x l -> (0 <= indexOfFrom x l i)%Z.
Proof.
  revert i. induction l as [|y l IH]; intros i Hi Hx; simpl.
  - destruct Hx.
  - destruct (String.eqb y x) eqn:E; [exact Hi|].
    destruct Hx as [->|Hx]; [now rewrite String.eqb_refl in E|].
    apply IH; [lia | exact Hx].
Qed.

Lemma indexOfFrom_absent (x : string) (l : list string) (i : Z) :
  ~ In x l -> indexOfFrom x l i = (-1)%Z.
Proof.
  revert i. induction l as [|y l IH]; intros i Hx; simpl; auto.
  destruct (String.eqb y x) eqn:E.
  - apply String.eqb_eq in E. exfalso. apply Hx. now left.
  - apply IH. intros H. apply Hx. now right.
Qed.

Lemma indexOf_In (x : string) (l : list string) :
  (indexOf x l <? 0)%Z = false <-> In x l.
Proof.
  unfold indexOf. split.
  - intros H. destruct (in_dec string_dec x l) as [Hin|Hout]; auto.
    rewrite (indexOfFrom_absent x l 0 Hout) in H. discriminate.
  - intros H. apply Z.ltb_ge. apply indexOfFrom_found; [lia | exact H].
Qed.

Lemma environments_In (config : Config.t) (e : string) :
  In e (environments config) <-> e = "production" \/ In e (configuredEnv config).
Proof.
  unfold environments.
  destruct (indexOf "production" (configuredEnv config) <? 0)%Z eqn:E.
  - rewrite in_app_iff. simpl. intuition.
  - apply indexOf_In in E. split; [auto|]. intros [->|H]; auto.
Qed.

(** X1: the constructor sets caching up exactly when [NODE_ENV] is set
    and names "production" or one of the configured environments
    ("production" always counts, listed or not); in every other
    environment, and with [NODE_ENV] unset, rendering is the host
    renderer's, whatever the configuration registers. *)
Theorem caching_runs_in_listed_environments (config : Config.t)
    (nodeEnv : option string) :
  (InstantiateReactComponentOptimizer config nodeEnv <> None
   <-> exists e, nodeEnv = Some e
                 /\ (e = "production" \/ In e (configuredEnv config)))
  /\ ((forall e, nodeEnv = Some e ->
                 e <> "production" /\ ~ In e (configuredEnv config)) ->
      forall c rootID w,
        mountWith (InstantiateReactComponentOptimizer config nodeEnv) c rootID w
        = hostMount c rootID w).
Proof.
  assert (Hiff :
    InstantiateReactComponentOptimizer config nodeEnv <> None
    <-> exists e, nodeEnv = Some e
                  /\ (e = "production" \/ In e (configuredEnv config))).
  { unfold InstantiateReactComponentOptimizer.
    destruct nodeEnv as [e|].
    - destruct (indexOf e (environments config) <? 0)%Z eqn:E.
      + split; [congruence|]. intros (e' & He & Hin). injection He as <-.
        apply environments_In, indexOf_In in Hin. congruence.
      + split; [|discriminate]. intros _. exists e. split; auto.
        now apply environments_In, indexOf_In.
    - split; [congruence|]. intros (e & He & _). discriminate. }
  split; [exact Hiff|].
  intros Hout c rootID w.
  destruct (InstantiateReactComponentOptimizer config nodeEnv) as [self|] eqn:E;
    [|reflexivity].
  assert (Hsome : Some self <> None) by discriminate.
  apply Hiff in Hsome as (e & He & Hin).
  destruct (Hout e He) as [Hp Hl]. tauto.
Qed.

(** ** Disabling *)

Lemma disabled_renderAll (self : optimizer)
    (calls : list (component * string)) (w : world) :
  enabled self = false ->
  renderAll self calls w
  = (w, map (fun cr => HostRender (props (fst cr)) (snd cr)) calls).
Proof.
  intros He. revert w. induction calls as [|[c r] calls IH]; intros w; simpl.
  - reflexivity.
  - unfold mountComponent at 1 2. rewrite He. simpl. now rewrite IH.
Qed.

Lemma hostRenders_only (calls : list (component * string)) :
  let es := map (fun cr => HostRender (props (fst cr)) (snd cr)) calls in
  hostRenders es = List.length calls /\ storeAccesses es = 0 /\ emitted es = [].
Proof.
  induction calls as [|[c r] calls (H1 & H2 & H3)]; simpl; auto.
Qed.

(** X2: [config.disabled] disables only when it is the boolean [true]:
    any other value (left out, a number, the string "true") leaves the
    optimizer enabled.  A disabled optimizer renders every component
    through the host renderer: each call runs it once, nothing is read
    from or written to the store and nothing is emitted. *)
Theorem only_true_disables (config : Config.t) (e : string) (self : optimizer)
    (calls : list (component * string)) (w : world) :
  InstantiateReactComponentOptimizer config (Some e) = Some self ->
  (enabled self = false <-> Config.disabled config = VBool true)
  /\ (Config.disabled config = VBool true ->
      let '(w', es) := renderAll self calls w in
      w' = w /\ hostRenders es = List.length calls
      /\ storeAccesses es = 0 /\ emitted es = []).
Proof.
  unfold InstantiateReactComponentOptimizer.
  destruct (indexOf e (environments config) <? 0)%Z; [discriminate|].
  intros H. injection H as <-. simpl.
  assert (Hiff :
    negb match Config.disabled config with VBool true => true | _ => false end
    = false <-> Config.disabled config = VBool true).
  { destruct (Config.disabled config) as [| |[]| | | |]; simpl;
      split; congruence. }
  split; [exact Hiff|].
  intros Hd. rewrite disabled_renderAll by (simpl; now apply Hiff).
  pose proof (hostRenders_only calls) as Hh. cbv zeta in Hh. tauto.
Qed.

Lemma only_true_disables_witness :
  let config :=
    {| Config.env := EnvAbsent;
       Config.components := [("HelloWorld", EntryObject None None None)];
       Config.disabled := VBool true; Config.eventCallback := true;
       Config.collectLoadTimeStats := false |} in
  let self :=
    {| components := [("HelloWorld", resolveConfig (EntryObject None None None))];
       enabled := false; eventCallback := true;
       shouldCollectLoadTimeStats := false |} in
  let c := Examples.HelloWorld (VObject [("text", VString "Hello")]) in
  let '(w', es) := renderAll self [(c, "r1"); (c, "r2")] Examples.fresh in
  w' = Examples.fresh /\ hostRenders es = 2
  /\ storeAccesses es = 0 /\ emitted es = [].
Proof.
  intros config self c.
  exact (proj2 (only_true_disables config "production" self
                  [(c, "r1"); (c, "r2")] Examples.fresh eq_refl) eq_refl).
Defined.

(** X3: [enable(false)] suspends caching without touching the store:
    every call made meanwhile is the host renderer's and leaves the
    world as it was, so that after [enable(true)] a call finds what it
    would have found before. *)
Theorem enable_false_suspends_caching (self : optimizer)
    (calls : list (component * string)) (c : component) (rootID : string)
    (w : world) :
  let '(w', es) := renderAll (enable self false) calls w in
  w' = w /\ hostRenders es = List.length calls
  /\ storeAccesses es = 0 /\ emitted es = []
  /\ mountComponent (enable (enable self false) true) c rootID w'
     = mountComponent (enable self true) c rootID w.
Proof.
  rewrite disabled_renderAll by reflexivity.
  pose proof (hostRenders_only calls) as Hh. cbv zeta in Hh.
  repeat split; tauto.
Qed.

(** ** Registration by name *)

(** X4: a component is taken for caching when its [displayName] or its
    function name is registered, but its configuration is looked up
    under [displayName || name].  So a component with a non-empty
    [displayName] that is not registered, whose function name is, makes
    the render call throw a [TypeError] before anything else happens:
    the host renderer is not run and the store is not touched. *)
Theorem unregistered_displayName_throws (self : optimizer) (c : component)
    (d : string) (cfg : cacheConfig) (rootID : string) (w : world) :
  enabled self = true ->
  displayName c = Some d ->
  d <> EmptyString ->
  JS.lookup d (components self) = None ->
  JS.lookup (name c) (components self) = Some cfg ->
  let o := mountComponent self c rootID w in
  shouldComponentBeCached self c = true
  /\ (exists what, result o = Throw (TypeError what))
  /\ effects o = []
  /\ worldAfter o = w
  /\ propsAfter o = props c.
Proof.
  intros He Hd Hne Hnone Hname. cbv zeta.
  assert (Hs : shouldComponentBeCached self c = true).
  { unfold shouldComponentBeCached. rewrite Hd, Hnone, Hname. reflexivity. }
  assert (Hn : componentName c = d).
  { unfold componentName. rewrite Hd. destruct d; congruence. }
  unfold mountComponent. rewrite He, Hs. simpl.
  unfold mountComponentWrapper. rewrite Hn, Hnone. simpl.
  repeat split; eauto.
Qed.

Lemma unregistered_displayName_throws_witness :
  let c := {| displayName := Some "Greeting"; name := "HelloWorld";
              props := VObject [("text", VString "Hello")];
              mount := Examples.helloMount; hrtimeNS := 1500 |} in
  let o := mountComponent Examples.templated c "r1" Examples.fresh in
  shouldComponentBeCached Examples.templated c = true
  /\ (exists what, result o = Throw (TypeError what))
  /\ effects o = []
  /\ worldAfter o = Examples.fresh
  /\ propsAfter o = props c.
Proof.
  intros c o.
  apply (unregistered_displayName_throws Examples.templated c "Greeting"
           (resolveConfig (EntryObject None None (Some ["text"])))
           "r1" Examples.fresh);
    [reflexivity | reflexivity | discriminate | reflexivity | reflexivity].
Defined.

(** ** A miss and a hit, in full *)

Lemma wrapper_miss (self : optimizer) (c : component) (cfg : cacheConfig)
    (g : value) (rootID : string) (w : world) :
  JS.lookup (componentName c) (components self) = Some cfg ->
  cacheKeyGen cfg (props c) = Normal g ->
  g <> VNull ->
  let fl := templatizeAll (templateAttrs cfg) (props c) in
  let key := cacheKeyOf (componentName c) g (arrayShapes fl) in
  let m := mount c (propsNow fl) rootID in
  let entry := storedEntry (templateAttrs cfg) m rootID in
  let o := mountComponentWrapper self c rootID w in
  storeGet (lruCache w) key = None ->
  result o = processed (templateAttrs cfg) m (compiled entry) (templateAttrValues fl)
  /\ effects o = [CacheGet key; HostRender (propsNow fl) rootID;
                  Emit (missEvent self c); CacheSet key entry]
  /\ lruCache (worldAfter o) = storeSet (lruCache w) key entry
  /\ propsAfter o
     = restoreAll (templateAttrValues fl) (templateAttrs cfg) (propsNow fl).
Proof.
  intros Hc Hg Hn. cbv zeta. intros Hs.
  unfold mountComponentWrapper, storedEntry, processed, missEvent.
  rewrite Hc, Hg.
  destruct g; try congruence; rewrite Hs;
    destruct (templateAttrs cfg); simpl; rewrite ?queueEvent_store;
    repeat split; reflexivity.
Qed.

Lemma wrapper_hit (self : optimizer) (c : component) (cfg : cacheConfig)
    (g : value) (rootID : string) (w : world) (cachedObj : cacheEntry) :
  JS.lookup (componentName c) (components self) = Some cfg ->
  cacheKeyGen cfg (props c) = Normal g ->
  g <> VNull ->
  let fl := templatizeAll (templateAttrs cfg) (props c) in
  let key := cacheKeyOf (componentName c) g (arrayShapes fl) in
  let o := mountComponentWrapper self c rootID w in
  storeGet (lruCache w) key = Some cachedObj ->
  result o
  = rerooted cachedObj rootID
      (processed (templateAttrs cfg) (markup cachedObj) (compiled cachedObj)
         (templateAttrValues fl))
  /\ effects o = [CacheGet key; Emit (hitEvent c)]
  /\ worldAfter o = queueEvent self (hitEvent c) w
  /\ propsAfter o
     = restoreAll (templateAttrValues fl) (templateAttrs cfg) (propsNow fl).
Proof.
  intros Hc Hg Hn. cbv zeta. intros Hs.
  unfold mountComponentWrapper, processed, rerooted, hitEvent.
  rewrite Hc, Hg.
  destruct g; try congruence; rewrite Hs;
    destruct (templateAttrs cfg); simpl;
    try (unfold restorePropsAndProcessTemplate; destruct (compiled cachedObj));
    repeat split; reflexivity.
Qed.

(** ** The generators the constructor supplies *)




(** Two calls under one key, without template attributes: the second is
    served the markup of the first. *)
Lemma second_call_is_served (self : optimizer) (c1 c2 : component)
    (cfg : cacheConfig) (g : value) (r1 r2 : string) (w : world) :
  enabled self = true ->
  componentName c2 = componentName c1 ->
  JS.lookup (componentName c1) (components self) = Some cfg ->
  templateAttrs cfg = [] ->
  cacheKeyGen cfg (props c1) = Normal g ->
  cacheKeyGen cfg (props c2) = Normal g ->
  g <> VNull ->
  storeGet (lruCache w) (cacheKeyOf (componentName c1) g []) = None ->
  let o1 := mountComponent self c1 r1 w in
  let o2 := mountComponent self c2 r2 (worldAfter o1) in
  result o1 = Normal (mount c1 (props c1) r1)
  /\ kindOf (effects o2) = IsHit
  /\ hostRenders (effects o2) = 0
  /\ result o2
     = Normal (Str.replaceAll (reactid r1) (reactid r2)
                 (mount c1 (props c1) r1))
  /\ propsAfter o2 = props c2.
Proof.
  intros He Hname Hc Ht Hg1 Hg2 Hn Hs. cbv zeta.
  assert (Hc2 : JS.lookup (componentName c2) (components self) = Some cfg)
    by now rewrite Hname.
  rewrite (wrapper_installed _ _ _ _ He Hc), (wrapper_installed _ _ _ _ He Hc2).
  pose proof (wrapper_miss self c1 cfg g r1 w Hc Hg1 Hn) as Hm.
  cbv zeta in Hm. rewrite Ht in Hm. specialize (Hm Hs).
  destruct Hm as (Hr1 & _ & Hl1 & _).
  pose proof (wrapper_hit self c2 cfg g r2
                (worldAfter (mountComponentWrapper self c1 r1 w))
                (storedEntry [] (mount c1 (props c1) r1) r1) Hc2 Hg2 Hn) as Hh.
  cbv zeta in Hh. rewrite Ht, Hname in Hh.
  assert (Hs2 :
    storeGet (lruCache (worldAfter (mountComponentWrapper self c1 r1 w)))
      (cacheKeyOf (componentName c1) g [])
    = Some (storedEntry [] (mount c1 (props c1) r1) r1)).
  { rewrite Hl1. apply lookup_update_same. }
  destruct (Hh Hs2) as (Hr2 & He2 & _ & Hp2).
  rewrite Hr1, Hr2, He2, Hp2. simpl. auto.
Qed.





Lemma get_own_string (fields : list (string * value)) (a s : string) :
  JS.lookup a fields = Some (VString s) ->
  Lodash.get (VObject fields) a = VString s.
Proof.
  intros H. unfold Lodash.get, Lodash.castPath. simpl. now rewrite H; simpl; rewrite H.
Qed.

Lemma genKey_two_strings (a b s1 s2 : string) :
  a <> b ->
  genAttrBasedKeyFunction [a; b] (VObject [(a, VString s1); (b, VString s2)])
  = Normal (VString (s1 ++ s2)).
Proof.
  intros Hab. unfold genAttrBasedKeyFunction. cbn [fold_left].
  rewrite (get_own_string [(a, VString s1); (b, VString s2)] a s1),
          (get_own_string [(a, VString s1); (b, VString s2)] b s2).
  - reflexivity.
  - simpl. apply String.eqb_neq in Hab. rewrite Hab. now rewrite String.eqb_refl.
  - simpl. now rewrite String.eqb_refl.
Qed.

(** X7: the key built from [cacheAttrs] is the plain concatenation of
    the attribute values, with nothing between them.  Props that split
    the same text differently over two listed attributes get the same
    key, and the second call is served the markup rendered for the
    first. *)
Theorem concatenated_key_conflates (self : optimizer) (c1 c2 : component)
    (a b s1 s2 t1 t2 r1 r2 : string) (w : world) :
  enabled self = true ->
  componentName c2 = componentName c1 ->
  JS.lookup (componentName c1) (components self)
  = Some (resolveConfig (EntryObject None (Some [a; b]) None)) ->
  a <> b ->
  props c1 = VObject [(a, VString s1); (b, VString s2)] ->
  props c2 = VObject [(a, VString t1); (b, VString t2)] ->
  (s1 ++ s2 = t1 ++ t2)%string ->
  storeGet (lruCache w)
    (cacheKeyOf (componentName c1) (VString (s1 ++ s2)) []) = None ->
  literalPattern r1 = true ->
  literalPattern r2 = true ->
  let o1 := mountComponent self c1 r1 w in
  let o2 := mountComponent self c2 r2 (worldAfter o1) in
  genAttrBasedKeyFunction [a; b] (props c1) = Normal (VString (s1 ++ s2))
  /\ genAttrBasedKeyFunction [a; b] (props c2) = Normal (VString (s1 ++ s2))
  /\ kindOf (effects o2) = IsHit
  /\ result o2
     = Normal (Str.replaceAll (reactid r1) (reactid r2)
                 (mount c1 (props c1) r1)).
Proof.
  intros He Hname Hc Hab Hp1 Hp2 Hcat Hs _ _.
  assert (Hg1 : genAttrBasedKeyFunction [a; b] (props c1)
                = Normal (VString (s1 ++ s2))).
  { rewrite Hp1. now apply genKey_two_strings. }
  assert (Hg2 : genAttrBasedKeyFunction [a; b] (props c2)
                = Normal (VString (s1 ++ s2))).
  { rewrite Hp2, Hcat. now apply genKey_two_strings. }
  assert (Hn : VString (s1 ++ s2) <> VNull) by discriminate.
  destruct (second_call_is_served self c1 c2 _ _ r1 r2 w He Hname Hc eq_refl
              Hg1 Hg2 Hn Hs) as (_ & Hk & _ & Hr & _).
  cbv zeta. auto.
Qed.

Lemma concatenated_key_conflates_witness :
  let c1 := Examples.HelloWorld
              (VObject [("text", VString "ab"); ("id", VString "c")]) in
  let c2 := Examples.HelloWorld
              (VObject [("text", VString "a"); ("id", VString "bc")]) in
  let self := Examples.optimizerOf "HelloWorld"
                (EntryObject None (Some ["text"; "id"]) None) in
  let o1 := mountComponent self c1 "r1" Examples.fresh in
  let o2 := mountComponent self c2 "r2" (worldAfter o1) in
  kindOf (effects o2) = IsHit
  /\ result o2 = Normal (Examples.div "r2" "ab").
Proof.
  intros c1 c2 self o1 o2.
  destruct (concatenated_key_conflates self c1 c2 "text" "id" "ab" "c" "a" "bc"
              "r1" "r2" Examples.fresh)
    as (_ & _ & Hk & Hr);
    [reflexivity | reflexivity | reflexivity | discriminate | reflexivity
    | reflexivity | reflexivity | reflexivity | reflexivity | reflexivity |].
  split; [exact Hk | exact Hr].
Defined.

(** ** The store *)

Lemma colon_prefix (a b x y : string) :
  Str.mem ":" a = false -> Str.mem ":" b = false ->
  (a ++ ":" ++ x = b ++ ":" ++ y)%string -> a = b.
Proof.
  revert b. induction a as [|c a IH]; intros [|d b] Ha Hb H; simpl in *.
  - reflexivity.
  - injection H as H _. subst d. discriminate.
  - injection H as H _. subst c. discriminate.
  - injection H as -> H.
    apply orb_false_elim in Ha as [_ Ha].
    apply orb_false_elim in Hb as [_ Hb].
    f_equal. now apply IH.
Qed.

Lemma cacheKeyOf_component (n1 n2 : string) (g1 g2 : value)
    (s1 s2 : list string) :
  Str.mem ":" n1 = false -> Str.mem ":" n2 = false ->
  cacheKeyOf n1 g1 s1 = cacheKeyOf n2 g2 s2 -> n1 = n2.
Proof. unfold cacheKeyOf. apply colon_prefix. Qed.

Lemma mountComponent_store (self : optimizer) (c : component)
    (rootID : string) (w : world) :
  let o := mountComponent self c rootID w in
  lruCache (worldAfter o) = lruCache w
  \/ exists g shapes entry,
       storeGet (lruCache w) (cacheKeyOf (componentName c) g shapes) = None
       /\ lruCache (worldAfter o)
          = storeSet (lruCache w) (cacheKeyOf (componentName c) g shapes) entry
       /\ storeWrites (effects o)
          = [(cacheKeyOf (componentName c) g shapes, entry)].
Proof.
  cbv zeta. unfold mountComponent.
  destruct (enabled self && shouldComponentBeCached self c); [|now left].
  destruct (wrapper_cases self c rootID w)
    as [_ _ Hw _ | cfg e _ _ _ _ Hw _ | cfg _ _ Ho
        | cfg g cachedObj _ _ _ fl key ev _ _ Hw _
        | cfg g _ _ _ fl key ev Hs (entry & He & Hl & _) _].
  - left. now rewrite Hw.
  - left. now rewrite Hw.
  - left. now rewrite Ho.
  - left. now rewrite Hw, queueEvent_store.
  - right. exists g, (arrayShapes fl), entry. rewrite He. auto.
Qed.


(** X8: component names without a colon keep the store apart: what the
    store holds after a render call of one component under a key of a
    component with another name, it held before the call.  A call never
    creates or replaces an entry that another component could be
    served. *)
Theorem components_do_not_share_entries (self : optimizer) (c : component)
    (rootID : string) (w : world) (other : string) (g : value)
    (shapes : list string) (e : cacheEntry) :
  Str.mem ":" (componentName c) = false ->
  Str.mem ":" other = false ->
  other <> componentName c ->
  let o := mountComponent self c rootID w in
  storeGet (lruCache (worldAfter o)) (cacheKeyOf other g shapes) = Some e ->
  storeGet (lruCache w) (cacheKeyOf other g shapes) = Some e.
Proof.
  intros Hc Ho Hne. cbv zeta.
  destruct (mountComponent_store self c rootID w)
    as [-> | (g' & shapes' & entry & _ & -> & _)]; [auto|].
  unfold storeGet, storeSet. rewrite lookup_update_other; [auto|].
  intros E. apply cacheKeyOf_component in E; auto.
Qed.

Lemma components_do_not_share_entries_witness :
  let c := Examples.HelloWorld (VObject [("text", VString "Hello")]) in
  let c' := Examples.Pair (VObject []) in
  let w := worldAfter (mountComponent Examples.paired c' "r0" Examples.fresh) in
  let o := mountComponent Examples.templated c "r1" w in
  let e := {| markup := Examples.div "r0" "|"; 
              compiled := Some (Lodash.template (Examples.div "r0" "|"));
              rootId := "r0" |} in
  storeGet (lruCache w) (cacheKeyOf "Pair" (VString "_defaultKey") []) = Some e.
Proof.
  intros c c' w o e.
  apply (components_do_not_share_entries Examples.templated c "r1" w
           "Pair" (VString "_defaultKey") [] e);
    [reflexivity | reflexivity | discriminate | reflexivity].
Defined.







(** ** Root ids *)







(** ** Escaping *)

Lemma mem_append (c : ascii) (a b : string) :
  Str.mem c (a ++ b) = Str.mem c a || Str.mem c b.
Proof.
  induction a as [|x a IH]; simpl; auto. now rewrite IH, orb_assoc.
Qed.

Lemma markupFree_append (a b : string) :
  markupFree a = true -> markupFree b = true -> markupFree (a ++ b) = true.
Proof.
  unfold markupFree. rewrite !mem_append, !andb_true_iff, !negb_true_iff.
  intros (((A1 & A2) & A3) & A4) (((B1 & B2) & B3) & B4).
  now rewrite A1, A2, A3, A4, B1, B2, B3, B4.
Qed.

Lemma escapeChar_markupFree (c : ascii) : markupFree (React.escapeChar c) = true.
Proof.
  unfold React.escapeChar.
  destruct (Ascii.eqb c (ascii_of_nat 34)) eqn:E1; [reflexivity|].
  destruct (Ascii.eqb c "&") eqn:E2; [reflexivity|].
  destruct (Ascii.eqb c "'") eqn:E3; [reflexivity|].
  destruct (Ascii.eqb c "<") eqn:E4; [reflexivity|].
  destruct (Ascii.eqb c ">") eqn:E5; [reflexivity|].
  unfold markupFree. simpl. now rewrite E1, E3, E4, E5.
Qed.

Lemma escapeHtml_markupFree (s : string) : markupFree (React.escapeHtml s) = true.
Proof.
  induction s as [|c s IH]; [reflexivity|]. simpl.
  apply markupFree_append; [apply escapeChar_markupFree | exact IH].
Qed.

Lemma uint_markupFree (d : Decimal.uint) :
  markupFree (NilEmpty.string_of_uint d) = true.
Proof.
  induction d as [|d IH|d IH|d IH|d IH|d IH|d IH|d IH|d IH|d IH|d IH];
    [reflexivity|..];
    cbn [NilEmpty.string_of_uint];
    match goal with
    | |- markupFree (String ?c ?r) = true =>
        exact (markupFree_append (String c EmptyString) r eq_refl IH)
    end.
Qed.

Lemma ofZ_markupFree (z : Z) : markupFree (Str.ofZ z) = true.
Proof.
  unfold Str.ofZ, NilZero.string_of_int.
  destruct (Z.to_int z) as [d|d]; unfold NilZero.string_of_uint.
  - destruct d; try reflexivity; apply uint_markupFree.
  - change (markupFree (String "-" EmptyString
                          ++ match d with
                             | Decimal.Nil => "0"
                             | _ => NilEmpty.string_of_uint d
                             end) = true).
    apply markupFree_append; [reflexivity|].
    destruct d; try reflexivity; apply uint_markupFree.
Qed.

Lemma escapeTextContentForBrowser_markupFree (v : value) :
  markupFree (React.escapeTextContentForBrowser v) = true.
Proof.
  destruct v as [| | [] | z | s | fields | elems]; simpl;
    try reflexivity; try apply escapeHtml_markupFree.
  apply ofZ_markupFree.
Qed.

Lemma update_escaped (k : string) (v : value) (values : table) :
  escapedTable values ->
  escapedTable (JS.update k (React.escapeTextContentForBrowser v) values).
Proof.
  intros H k' s Hl.
  destruct (string_dec k k') as [->|Hne].
  - rewrite lookup_update_same in Hl. injection Hl as <-.
    apply escapeTextContentForBrowser_markupFree.
  - rewrite lookup_update_other in Hl by exact Hne. exact (H _ _ Hl).
Qed.

Lemma bindLeaves_escaped (leaves : list (string * value)) (values : table) :
  escapedTable values -> escapedTable (bindLeaves leaves values).
Proof.
  unfold bindLeaves. revert values.
  induction leaves as [|[k x] leaves IH]; intros values H; simpl; auto.
  apply IH. now apply update_escaped.
Qed.

Lemma templatizeOne_escaped (s : flattened) (attr : string) :
  escapedTable (templateAttrValues s) ->
  escapedTable (templateAttrValues (templatizeOne s attr)).
Proof.
  intros H. unfold templatizeOne. simpl.
  rewrite templatizeAttr_table. simpl. now apply bindLeaves_escaped.
Qed.

(** X12: every value of the lookup table built by flattening is escaped
    text: whatever the props tree holds under the template attributes,
    no table value contains an angle bracket or a quote, so what a
    compiled template splices into cached markup cannot open or close an
    element or an attribute value. *)
Theorem table_values_are_escaped (attrs : list string) (p : value)
    (k s : string) :
  JS.lookup k (templateAttrValues (templatizeAll attrs p)) = Some s ->
  Str.mem "<" s = false /\ Str.mem ">" s = false
  /\ Str.mem (ascii_of_nat 34) s = false /\ Str.mem "'" s = false.
Proof.
  assert (H : escapedTable (templateAttrValues (templatizeAll attrs p))).
  { unfold templatizeAll.
    assert (H0 : escapedTable
                   (templateAttrValues
                      {| propsNow := p; templateAttrValues := [];
                         arrayShapes := [] |}))
      by (intros k' s' Hl; discriminate).
    revert H0.
    generalize {| propsNow := p; templateAttrValues := []; arrayShapes := [] |}.
    induction attrs as [|a attrs IH]; intros st H0; simpl; auto.
    apply IH. now apply templatizeOne_escaped. }
  intros Hl. specialize (H k s Hl). unfold markupFree in H.
  rewrite !andb_true_iff, !negb_true_iff in H. tauto.
Qed.

Lemma table_values_are_escaped_witness :
  JS.lookup "a_text"
    (templateAttrValues
       (templatizeAll ["text"]
          (VObject [("text", VString "<b onclick='x'>")])))
  = Some "&lt;b onclick=&#x27;x&#x27;&gt;"
  /\ Str.mem "<" "&lt;b onclick=&#x27;x&#x27;&gt;" = false.
Proof.
  split; [reflexivity|].
  exact (proj1 (table_values_are_escaped ["text"]
                  (VObject [("text", VString "<b onclick='x'>")])
                  "a_text" "&lt;b onclick=&#x27;x&#x27;&gt;" eq_refl)).
Defined.

(** ** The flat key, decoded *)

(** X13: on read paths in which no segment is empty or begins with an
    underscore the FlatKey can be read back: undoing the escaping gives
    the path again, so two such paths with one FlatKey are one path. *)
Theorem flatKey_decodes (s : string) :
  separable s = true ->
  unflatten (attrKey s) = s
  /\ forall t, separable t = true -> attrKey s = attrKey t -> s = t.
Proof.
  intros Hs. split; [now apply unflatten_attrKey|].
  intros t Ht H.
  rewrite <- (unflatten_attrKey s Hs), <- (unflatten_attrKey t Ht).
  now rewrite H.
Qed.

Lemma flatKey_decodes_witness :
  attrKey "a.foo_bar.items.0" = "a_foo__bar_items_0"
  /\ unflatten "a_foo__bar_items_0" = "a.foo_bar.items.0".
Proof.
  split; [reflexivity|].
  exact (proj1 (flatKey_decodes "a.foo_bar.items.0" eq_refl)).
Defined.

(** ** What flattening leaves alone *)












(** ** Scalar template attributes *)





(** ** Placeholders the call does not bind *)




(** ** What one call does, at most *)


(** ** Markup with and without placeholders *)




(** ** Arrays of scalars *)

Lemma replaceChar_app (c : ascii) (by_ a b : string) :
  Str.replaceChar c by_ (a ++ b)
  = (Str.replaceChar c by_ a ++ Str.replaceChar c by_ b)%string.
Proof.
  induction a as [|x a IH]; simpl; auto.
  destruct (Ascii.eqb x c); rewrite IH; [now rewrite append_assoc' | reflexivity].
Qed.

Lemma attrKey_app (a b : string) :
  attrKey (a ++ b) = (attrKey a ++ attrKey b)%string.
Proof. unfold attrKey. now rewrite !replaceChar_app. Qed.

Lemma replaceChar_digits (c : ascii) (by_ s : string) :
  Str.isDigit c = false -> Str.allDigits s = true ->
  Str.replaceChar c by_ s = s.
Proof.
  intros Hc. induction s as [|x s IH]; simpl; auto.
  intros H. apply andb_true_iff in H as [Hx Hs].
  destruct (Ascii.eqb x c) eqn:E.
  - apply Ascii.eqb_eq in E. subst x. congruence.
  - now rewrite IH.
Qed.

Lemma attrKey_index (propKey : string) (i : nat) :
  attrKey (propKey ++ "." ++ Str.ofNat i)
  = (attrKey propKey ++ "_" ++ Str.ofNat i)%string.
Proof.
  rewrite attrKey_app. f_equal.
  change ("." ++ Str.ofNat i)%string with (String "." (Str.ofNat i)).
  rewrite attrKey_cons. cbn [Ascii.eqb Bool.eqb]. cbn [append]. f_equal.
  unfold attrKey.
  rewrite (replaceChar_digits "_" "__" (Str.ofNat i) eq_refl (allDigits_ofNat i)).
  apply replaceChar_digits; [reflexivity | apply allDigits_ofNat].
Qed.

Lemma shapesOf_scalars (propKey : string) (elems : list value) :
  forallb JS.isScalar elems = true ->
  shapesOf propKey (VArray elems)
  = [(propKey ++ "_" ++ Str.ofNat (List.length elems))%string].
Proof.
  intros H. cbn [shapesOf]. f_equal. generalize 0 as i.
  induction elems as [|x elems IH]; intros i; [reflexivity|].
  simpl in H. apply andb_true_iff in H as [Hx Hr].
  rewrite (IH Hr). destruct x; try discriminate; reflexivity.
Qed.

Lemma leavesElems_cons_scalar (propKey : string) (x : value)
    (elems : list value) (i0 : nat) :
  JS.isScalar x = true ->
  leavesElems propKey (x :: elems) i0
  = ((propKey ++ "." ++ Str.ofNat i0)%string, x)
    :: leavesElems propKey elems (S i0).
Proof. intros Hx. destruct x; try discriminate; reflexivity. Qed.

Lemma leavesElems_nth (propKey : string) (elems : list value) :
  forallb JS.isScalar elems = true ->
  forall i0 i x,
    nth_error elems i = Some x ->
    In ((propKey ++ "." ++ Str.ofNat (i0 + i))%string, x)
       (leavesElems propKey elems i0).
Proof.
  induction elems as [|y elems IH]; intros H i0 i x Hi.
  - destruct i; discriminate.
  - simpl in H. apply andb_true_iff in H as [Hy Hr].
    rewrite leavesElems_cons_scalar by exact Hy.
    destruct i as [|i]; simpl in Hi.
    + injection Hi as ->. rewrite Nat.add_0_r. now left.
    + right. rewrite Nat.add_succ_r. exact (IH Hr (S i0) i x Hi).
Qed.

Lemma leavesElems_keys (propKey : string) (elems : list value) :
  forallb JS.isScalar elems = true ->
  forall i0 k x,
    In (k, x) (leavesElems propKey elems i0) ->
    exists j, k = (propKey ++ "." ++ Str.ofNat (i0 + j))%string.
Proof.
  induction elems as [|y elems IH]; intros H i0 k x Hin.
  - destruct Hin.
  - simpl in H. apply andb_true_iff in H as [Hy Hr].
    rewrite leavesElems_cons_scalar in Hin by exact Hy.
    destruct Hin as [E|Hin].
    + injection E as <- _. exists 0. now rewrite Nat.add_0_r.
    + destruct (IH Hr (S i0) k x Hin) as [j ->].
      exists (S j). now rewrite Nat.add_succ_r.
Qed.

Lemma leavesElems_NoDup (propKey : string) (elems : list value) :
  forallb JS.isScalar elems = true ->
  forall i0,
    NoDup (map (fun kx : string * value => attrKey (fst kx))
             (leavesElems propKey elems i0)).
Proof.
  induction elems as [|y elems IH]; intros H i0.
  - constructor.
  - simpl in H. apply andb_true_iff in H as [Hy Hr].
    rewrite leavesElems_cons_scalar by exact Hy.
    cbn [map fst]. constructor; [|exact (IH Hr (S i0))].
    intros Hin. apply in_map_iff in Hin as ([k x] & E & Hin).
    destruct (leavesElems_keys propKey elems Hr (S i0) k x Hin) as [j ->].
    cbn [fst] in E. rewrite !attrKey_index in E.
    apply append_inj_l in E. injection E as E. apply ofNat_inj in E. lia.
Qed.

(** X19: flattening an attribute that holds an array of scalars records
    one shape entry, the read path and the length, and binds every
    element under a FlatKey of its own, the attribute's FlatKey followed
    by an underscore and the index, to the escaped text of that
    element. *)
Theorem array_elements_are_bound (attr : string) (p : value)
    (elems : list value) :
  Lodash.get p attr = VArray elems ->
  forallb JS.isScalar elems = true ->
  let fl := templatizeAll [attr] p in
  arrayShapes fl
  = [(("a." ++ attr) ++ "_" ++ Str.ofNat (List.length elems))%string]
  /\ forall i x,
       nth_error elems i = Some x ->
       JS.lookup (attrKey ("a." ++ attr) ++ "_" ++ Str.ofNat i)
         (templateAttrValues fl)
       = Some (React.escapeTextContentForBrowser x).
Proof.
  intros Hg Hs. cbv zeta. unfold templatizeAll. cbn [fold_left].
  unfold templatizeOne. cbn [propsNow templateAttrValues arrayShapes].
  rewrite Hg. cbn [propsNow templateAttrValues arrayShapes]. split.
  - rewrite templatizeAttr_shapes. cbn [addlCacheForArr app].
    now apply shapesOf_scalars.
  - intros i x Hi.
    rewrite templatizeAttr_table. cbn [lookupPropTable].
    rewrite leavesOf_array, <- attrKey_index.
    apply bindLeaves_lookup; [now apply leavesElems_NoDup|].
    exact (leavesElems_nth ("a." ++ attr) elems Hs 0 i x Hi).
Qed.

Lemma array_elements_are_bound_witness :
  let p := VObject [("items", VArray [VString "a<b"; VNumber 2])] in
  let fl := templatizeAll ["items"] p in
  arrayShapes fl = ["a.items_2"]
  /\ JS.lookup "a_items_0" (templateAttrValues fl) = Some "a&lt;b"
  /\ JS.lookup "a_items_1" (templateAttrValues fl) = Some "2".
Proof.
  intros p fl.
  destruct (array_elements_are_bound "items" p [VString "a<b"; VNumber 2]
              eq_refl eq_refl) as [Hsh Hb].
  split; [exact Hsh|]. split.
  - exact (Hb 0 (VString "a<b") eq_refl).
  - exact (Hb 1 (VNumber 2) eq_refl).
Defined.

(** ** What the restore pass leaves in the tree *)







